(** * chat-backend: the request pipeline of [src/api/index.js]

    A shallow embedding of the serverless handler: the lazily initialised
    provider clients ([initClients]), the CORS helper ([setCorsHeaders]),
    the three route handlers ([handleHealth], [handleEmbeddings],
    [handleAsk]) and the router ([handler]).

    The two SaaS providers (OpenAI, Pinecone), the clock, the runtime's
    URL parser and its reading of a string as a number are not code of
    the repository: they are parameters of the model.  Every network call
    the handler makes is recorded, in order, in the [calls] field of the
    world, and the answer of a provider may depend on everything that was
    called before.  The log lines are modelled where they interpolate a
    value of the request, since that conversion can throw. *)

From Stdlib Require Import String Ascii ZArith NArith QArith Qminmax List Sorted Bool DecimalString.
From stdpp Require Import base gmap strings list.

Local Open Scope N_scope.
Local Set Warnings "-register-all".

(** ** JavaScript values, as they arrive in a parsed JSON body *)

(** The fields of [req.body] that the handlers read hold any JSON value;
    a field that is absent reads as [undefined].  A number is the value
    of the double that was parsed, an object is the list of its own
    properties, each key once, and one [ascii] stands for one code unit
    of a JavaScript string. *)
Inductive JsVal : Type :=
  | VUndefined
  | VNull
  | VBool (b : bool)
  | VNum (q : Q)
  | VStr (s : string)
  | VArr (items : list JsVal)
  | VObj (props : list (string * JsVal)).

(** ToBoolean: what [!v], [v || d] and [v ? a : b] test. *)
Definition truthy (v : JsVal) : bool :=
  match v with
  | VUndefined | VNull => false
  | VBool b => b
  | VNum q => negb (Qeq_bool q 0)
  | VStr s => negb (String.eqb s "")
  | VArr _ | VObj _ => true
  end.

(** [typeof v === 'string'] *)
Definition typeof_string (v : JsVal) : bool :=
  match v with VStr _ => true | _ => false end.

(** [id === v] for a string [id]: strict equality never converts. *)
Definition strict_eq_string (id : string) (v : JsVal) : bool :=
  match v with VStr s => String.eqb id s | _ => false end.

(** [o.k] on an object: its own property, else [undefined] (none of the
    keys read here is on [Object.prototype]). *)
Fixpoint own (k : string) (props : list (string * JsVal)) : JsVal :=
  match props with
  | [] => VUndefined
  | (k', v) :: rest => if String.eqb k k' then v else own k rest
  end.

Definition has_own (k : string) (props : list (string * JsVal)) : bool :=
  existsb (fun kv => String.eqb k (fst kv)) props.

(** Whether ToString succeeds on a value, as in a template literal
    [`${v}`].  A scalar always converts.  A parsed object has no callable
    property of its own, so an own [toString] key hides
    [Object.prototype.toString] and the conversion throws a TypeError;
    without it the object reads [[object Object]].  An array is joined,
    which converts each item that is neither null nor undefined. *)
Fixpoint converts (v : JsVal) : bool :=
  match v with
  | VArr items => forallb converts items
  | VObj props => negb (has_own "toString" props)
  | _ => true
  end.

(** A JavaScript number: a finite double, an infinity or NaN. *)
Inductive JsNumber : Type :=
  | NaN
  | Finite (q : Q)
  | PosInfinity
  | NegInfinity.

(** [n > 100] *)
Definition exceeds_100 (n : JsNumber) : bool :=
  match n with
  | Finite q => negb (Qle_bool q 100)
  | PosInfinity => true
  | NaN | NegInfinity => false
  end.

Section ToNumber.

(** StringToNumber of the runtime: the double a string reads as. *)
Variable Number_of : string -> JsNumber.

(** ToNumber of an array item through its string: null and undefined
    join as the empty string, a number reads back as itself, a boolean
    or an object gives a string that is no number, and an array of two
    items or more gives a string with a comma. *)
Fixpoint joined_number (v : JsVal) : JsNumber :=
  match v with
  | VUndefined | VNull => Finite 0
  | VBool _ => NaN
  | VNum q => Finite q
  | VStr s => Number_of s
  | VArr items =>
      match items with
      | [] => Finite 0
      | [item] => joined_number item
      | _ => NaN
      end
  | VObj _ => NaN
  end.

(** ToNumber of a value whose conversion to a primitive succeeds. *)
Definition to_number (v : JsVal) : JsNumber :=
  match v with
  | VUndefined => NaN
  | VNull => Finite 0
  | VBool b => Finite (if b then 1 else 0)
  | _ => joined_number v
  end.

End ToNumber.

(** [s || d] where [s] is a string that may be undefined
    ([process.env.X], a request header). *)
Definition str_or (s : option string) (d : string) : string :=
  match s with
  | Some x => if String.eqb x "" then d else x
  | None => d
  end.

(** ** Strings *)

Definition dq : string := String (ascii_of_nat 34) EmptyString.
Definition nl : string := String (ascii_of_nat 10) EmptyString.

(** [hay.includes(needle)] *)
Fixpoint includes (needle hay : string) : bool :=
  String.prefix needle hay ||
  match hay with
  | EmptyString => false
  | String _ rest => includes needle rest
  end.

(** [s.substring(0, n)]: the first [n] code units, all of [s] when it is
    shorter. *)
Definition substring_to (n : nat) (s : string) : string := substring 0 n s.

(** [n.toString()] for the non-negative integer [Date.now()] returns. *)
Definition toString (n : N) : string := NilZero.string_of_uint (N.to_uint n).

(** [p.replace(/^\/api/, '')]: drops one leading [/api]. *)
Definition strip_api (p : string) : string :=
  if String.prefix "/api" p then substring 4 (String.length p - 4) p else p.

(** [url.pathname.replace(/^\/api/, '') || '/'] *)
Definition normalize_path (pathname : string) : string :=
  str_or (Some (strip_api pathname)) "/".

(** ** Errors and completions *)

(** A thrown JavaScript error; the handlers read only [error.message]. *)
Record Error : Type := mkError { name : string; message : string }.

Definition TypeError (msg : string) : Error := mkError "TypeError" msg.

(** How an evaluation ends: normally with a value, or by throwing. *)
Inductive Completion (A : Type) : Type :=
  | Normal (a : A)
  | Throw (e : Error).
Arguments Normal {A} a.
Arguments Throw {A} e.

Definition is_normal {A} (c : Completion A) : bool :=
  match c with Normal _ => true | Throw _ => false end.

(** ** The providers *)

Definition Vector : Type := list Q.

(** A match of the similarity query: [{ id, score, metadata: { text } }].
    The score is the store's cosine similarity, a finite number. *)
Record Match : Type := mkMatch { m_id : string; m_score : Q; m_text : string }.

Record OpenAI : Type := mkOpenAI { openai_apiKey : option string }.
Record Pinecone : Type := mkPinecone { pinecone_apiKey : option string }.
(** [pinecone.Index(indexName)] *)
Record PineconeIndex : Type := mkIndex { index_name : string }.

(** The network calls of the handler, with the arguments the source passes. *)
Inductive Call : Type :=
  | ListIndexes
  | CreateIndex (name : string) (dimension : N) (metric cloud region : string)
  | EmbeddingsCreate (model : string) (input : JsVal)
  | Upsert (index : string) (id : JsVal) (values : Vector) (text : JsVal)
  | Query (index : string) (vector : Vector) (topK : N) (includeMetadata : bool)
  | ChatCreate (model system user : string) (temperature : Q) (max_tokens : N).

(** Calls made so far, newest first. *)
Definition History : Type := list Call.

(** Calls of client initialisation, as opposed to the calls of a handler. *)
Definition init_call (c : Call) : bool :=
  match c with
  | ListIndexes | CreateIndex _ _ _ _ _ => true
  | _ => false
  end.

(** What the outside world answers.  The constructors of the two SDK
    clients make no network call but may throw (a missing key); the
    fields from [listIndexes] to [chat_create] are the answers to a
    call, given the calls before it; the last two are builtins of the
    runtime, the clock and the reading of a string as a number.
    [listIndexes] answers with [indexList.indexes], possibly undefined,
    already mapped to the names. *)
Record Providers : Type := mkProviders {
  new_OpenAI : option string -> Completion OpenAI;
  new_Pinecone : option string -> Completion Pinecone;
  listIndexes : History -> Completion (option (list string));
  createIndex : string -> N -> string -> string -> string -> History -> Completion unit;
  embeddings_create : string -> JsVal -> History -> Completion Vector;
  upsert : string -> JsVal -> Vector -> JsVal -> History -> Completion unit;
  query : string -> Vector -> N -> bool -> History -> Completion (list Match);
  chat_create : string -> string -> string -> Q -> N -> History -> Completion string;
  Date_now : History -> N;
  Number_of_string : string -> JsNumber
}.

(** ** The world: module-level variables and the calls made *)

Record World : Type := mkWorld {
  openai : option OpenAI;
  pineconeIndex : option PineconeIndex;
  pineconeInitialized : bool;
  calls : History
}.

(** The state of a freshly loaded module (lines 5-7). *)
Definition fresh_world : World := mkWorld None None false [].

(** ** The monad of the handlers: state and exceptions *)

Definition M (A : Type) : Type := World -> Completion A * World.

Definition ret {A} (a : A) : M A := fun w => (Normal a, w).

Definition bind {A B} (m : M A) (k : A -> M B) : M B :=
  fun w =>
    match m w with
    | (Normal a, w') => k a w'
    | (Throw e, w') => (Throw e, w')
    end.

Notation "x <- m ;; k" := (bind m (fun x => k))
  (at level 90, m at next level, right associativity).
Notation "m ;;; k" := (bind m (fun _ => k))
  (at level 90, right associativity).

Definition throw {A} (e : Error) : M A := fun w => (Throw e, w).

(** [try { body } catch (error) { handler }]: the writes of [body] before
    the throw stay. *)
Definition try_catch {A} (body : M A) (handler : Error -> M A) : M A :=
  fun w =>
    match body w with
    | (Normal a, w') => (Normal a, w')
    | (Throw e, w') => handler e w'
    end.

Definition get : M World := fun w => (Normal w, w).

(** A constructor or other local evaluation that may throw. *)
Definition lift {A} (c : Completion A) : M A := fun w => (c, w).

(** [await provider(...)]: the call is recorded, then answered. *)
Definition call {A} (c : Call) (answer : History -> Completion A) : M A :=
  fun w =>
    (answer (calls w),
     mkWorld (openai w) (pineconeIndex w) (pineconeInitialized w) (c :: calls w)).

Definition set_openai (o : OpenAI) : M unit :=
  fun w => (Normal tt, mkWorld (Some o) (pineconeIndex w) (pineconeInitialized w) (calls w)).

Definition set_pineconeIndex (i : PineconeIndex) : M unit :=
  fun w => (Normal tt, mkWorld (openai w) (Some i) (pineconeInitialized w) (calls w)).

Definition set_pineconeInitialized (b : bool) : M unit :=
  fun w => (Normal tt, mkWorld (openai w) (pineconeIndex w) b (calls w)).

(** The TypeError of a conversion that fails. *)
Definition cannot_convert : Error :=
  TypeError "Cannot convert object to primitive value".

(** [`${v}`] inside a logged template literal: only its throwing shows. *)
Definition interpolate (v : JsVal) : M unit :=
  if converts v then ret tt else throw cannot_convert.

(** A member access [o.f] on a variable that may be undefined. *)
Definition deref {A} (o : option A) (msg : string) : M A :=
  match o with
  | Some a => ret a
  | None => throw (TypeError msg)
  end.

(** ** Requests and responses *)

(** The object [req.body] after JSON parsing: the four properties the
    handlers destructure. *)
Record Body : Type := mkBody {
  text : JsVal;
  chunkId : JsVal;
  question : JsVal;
  documentID : JsVal
}.

(** [req]: [body] is [None] when [req.body] is undefined (no body was
    sent); [host] and [origin] are the two headers the source reads. *)
Record Request : Type := mkRequest {
  method : string;
  url : string;
  host : option string;
  origin : option string;
  body : option Body
}.

(** An object literal passed to [res.json]. *)
Definition Json : Type := list (string * JsVal).

(** [res]: the status code (200 until [status] is called), the headers
    set so far, the JSON body if one was sent, and whether the response
    was ended. *)
Record Response : Type := mkResponse {
  statusCode : N;
  headers : gmap string string;
  sent : option Json;
  ended : bool
}.

Definition new_response : Response := mkResponse 200 ∅ None false.

(** [res.setHeader(k, v)] *)
Definition setHeader (k v : string) (res : Response) : Response :=
  mkResponse (statusCode res) (<[k := v]> (headers res)) (sent res) (ended res).

(** [res.status(n)] *)
Definition status (n : N) (res : Response) : Response :=
  mkResponse n (headers res) (sent res) (ended res).

(** [res.json(obj)] *)
Definition json (obj : Json) (res : Response) : Response :=
  mkResponse (statusCode res) (headers res) (Some obj) true.

(** [res.end()] *)
Definition end_ (res : Response) : Response :=
  mkResponse (statusCode res) (headers res) (sent res) true.

Section Backend.

(** [process.env] *)
Variable env : gmap string string.
(** The providers and the clock. *)
Variable P : Providers.
(** [new URL(url, base).pathname] of the runtime; [None] when the
    constructor throws. *)
Variable URL_pathname : string -> string -> option string.

(** *** Provider clients (lines 9-51) *)

Definition initClients : M (option OpenAI * option PineconeIndex) :=
  w0 <- get ;;
  (match openai w0 with
   | None =>
       o <- lift (new_OpenAI P (env !! "OPENAI_API_KEY")) ;;
       set_openai o
   | Some _ => ret tt
   end) ;;;
  w1 <- get ;;
  (if negb (pineconeInitialized w1) then
     try_catch
       (pinecone <- lift (new_Pinecone P (env !! "PINECONE_API_KEY")) ;;
        let indexName := str_or (env !! "PINECONE_INDEX_NAME") "text-embeddings" in
        indexList <- call ListIndexes (listIndexes P) ;;
        let existingIndexes := default [] indexList in
        (if negb (existsb (String.eqb indexName) existingIndexes) then
           let cloud := str_or (env !! "PINECONE_CLOUD") "aws" in
           let region := str_or (env !! "PINECONE_REGION") "us-east-1" in
           call (CreateIndex indexName 1536 "cosine" cloud region)
                (createIndex P indexName 1536 "cosine" cloud region)
           (* then a 30 s timer, which touches nothing *)
         else ret tt) ;;;
        set_pineconeIndex (mkIndex indexName) ;;;
        set_pineconeInitialized true)
       (fun error => throw error)
   else ret tt) ;;;
  w2 <- get ;;
  ret (openai w2, pineconeIndex w2).

(** *** CORS (lines 54-78) *)

Definition cors_methods : string := "GET,OPTIONS,PATCH,DELETE,POST,PUT".
Definition cors_headers : string :=
  "X-CSRF-Token, X-Requested-With, Accept, Accept-Version, Content-Length, Content-MD5, Content-Type, Date, X-Api-Version, Authorization".

(** [origin && (...)]: an absent or empty Origin header is falsy. *)
Definition origin_allowed (allowedOrigin : string) (o : option string) : bool :=
  match o with
  | Some origin =>
      negb (String.eqb origin "") &&
      (includes "localhost" origin || includes "127.0.0.1" origin ||
       String.eqb allowedOrigin "*")
  | None => false
  end.

Definition setCorsHeaders (req : Request) (res : Response) : Response :=
  let allowedOrigin := str_or (env !! "FRONTEND_URL") "*" in
  let res1 :=
    if origin_allowed allowedOrigin (origin req) then
      setHeader "Access-Control-Allow-Origin" (default "" (origin req)) res
    else if negb (String.eqb allowedOrigin "*") then
      setHeader "Access-Control-Allow-Origin" allowedOrigin res
    else
      setHeader "Access-Control-Allow-Origin" "*" res in
  setHeader "Access-Control-Allow-Headers" cors_headers
    (setHeader "Access-Control-Allow-Methods" cors_methods
       (setHeader "Access-Control-Allow-Credentials" "true" res1)).

(** *** Health (lines 81-83) *)

Definition handleHealth (req : Request) (res : Response) : Response :=
  json [("status", VStr "ok")] (status 200 res).

(** *** Ingestion (lines 86-128) *)

(** [const { text, chunkId } = req.body] throws on an undefined body. *)
Definition destructure (b : option Body) (first : string) : M Body :=
  deref b ("Cannot destructure property '" +:+ first +:+ "' of 'req.body' as it is undefined.").

(** [text.length] of a string, an array, an object (its own property)
    and a number or boolean (undefined). *)
Definition length_value (text : JsVal) : JsVal :=
  match text with
  | VStr s => VNum (inject_Z (Z.of_nat (String.length s)))
  | VArr items => VNum (inject_Z (Z.of_nat (List.length items)))
  | VObj props => own "length" props
  | _ => VUndefined
  end.

Definition length_of (text : JsVal) : M JsVal :=
  match text with
  | VUndefined | VNull =>
      throw (TypeError "Cannot read properties of undefined (reading 'length')")
  | _ => ret (length_value text)
  end.

(** The log line of line 97: it interpolates [text.length], and
    [chunkId] when that is truthy. *)
Definition log_chunk (text chunkId : JsVal) : M unit :=
  len <- length_of text ;;
  interpolate len ;;;
  if truthy chunkId then interpolate chunkId else ret tt.

(** [text.length > 100 ? text.substring(0, 100) + '...' : text]
    (line 121).  A number or boolean has no [length], and
    [undefined > 100] is false; an array or an object may have a
    [length] but has no [substring] to call. *)
Definition preview (text : JsVal) : M JsVal :=
  match text with
  | VStr s =>
      if (100 <? String.length s)%nat
      then ret (VStr (substring_to 100 s +:+ "..."))
      else ret text
  | VArr items =>
      if (100 <? List.length items)%nat
      then throw (TypeError "text.substring is not a function")
      else ret text
  | VObj props =>
      if negb (converts (own "length" props)) then throw cannot_convert
      else if exceeds_100 (to_number (Number_of_string P) (own "length" props))
      then throw (TypeError "text.substring is not a function")
      else ret text
  | VBool _ | VNum _ => ret text
  | VUndefined | VNull =>
      throw (TypeError "Cannot read properties of undefined (reading 'length')")
  end.

(** [Date.now()] *)
Definition Date_now_ : M N := fun w => (Normal (Date_now P (calls w)), w).

Definition handleEmbeddings (req : Request) (res : Response) : M Response :=
  try_catch
    (clients <- initClients ;;
     b <- destructure (body req) "text" ;;
     if negb (truthy (text b)) then
       ret (json [("error", VStr "Text content is required")] (status 400 res))
     else
       log_chunk (text b) (chunkId b) ;;;
       _ <- deref (fst clients) "Cannot read properties of undefined (reading 'embeddings')" ;;
       embedding <- call (EmbeddingsCreate "text-embedding-3-small" (text b))
                         (embeddings_create P "text-embedding-3-small" (text b)) ;;
       id <- (if truthy (chunkId b) then ret (chunkId b)
              else now <- Date_now_ ;; ret (VStr (toString now))) ;;
       index <- deref (snd clients) "Cannot read properties of undefined (reading 'upsert')" ;;
       call (Upsert (index_name index) id embedding (text b))
            (upsert P (index_name index) id embedding (text b)) ;;;
       (* line 116 logs the id *)
       interpolate id ;;;
       shown <- preview (text b) ;;
       ret (json [("success", VBool true); ("id", id); ("text", shown)]
                 (status 201 res)))
    (fun error => ret (json [("error", VStr (message error))] (status 500 res))).

(** *** Question answering (lines 131-245) *)

Definition refusal_sentence : string := "I'm sorry, I don't know.".

(** The system message of the exact-match branch (lines 182-188), up
    to the interpolated context.  The three non-ASCII characters of the
    source line 183 are kept as the bytes of the source file. *)
Definition strict_instructions : string :=
  "You are a precise, context-driven assistant. " +:+ nl +:+
  "            - You must answer using only the provided " +:+ dq +:+ "Context" +:+ dq +:+ " blockâ€”do not draw on any outside knowledge. " +:+ nl +:+
  "            - If the user's question uses different wording than the context, mentally paraphrase or expand synonyms to find the matching passage. " +:+ nl +:+
  "            - If the answer cannot be found in the context, reply: " +:+ dq +:+ refusal_sentence +:+ dq +:+ " " +:+ nl +:+
  "            - Keep your answer as concise as possible." +:+ nl +:+
  "            " +:+ nl +:+
  "            Context: ".

(** The system message of the best-match branch (lines 213-215). *)
Definition lenient_instructions : string :=
  "Answer the question based on the provided context. Keep your answer concise." +:+ nl +:+
  "              " +:+ nl +:+
  "              Context: ".

Definition strict_prompt (context : string) : string := strict_instructions +:+ context.
Definition lenient_prompt (context : string) : string := lenient_instructions +:+ context.

(** [openai.chat.completions.create({...})] followed by
    [completion.choices[0].message.content] (lines 178-200, 209-227). *)
Definition complete (system user : string) : M string :=
  let model := str_or (env !! "OPENAI_MODEL") "gpt-3.5-turbo" in
  call (ChatCreate model system user (7 # 10) 500)
       (chat_create P model system user (7 # 10) 500).

Definition handleAsk (req : Request) (res : Response) : M Response :=
  try_catch
    (clients <- initClients ;;
     b <- destructure (body req) "question" ;;
     (* line 138 logs the question and the document id *)
     interpolate (question b) ;;;
     interpolate (documentID b) ;;;
     match question b with
     | VStr q =>
         if negb (truthy (question b)) then
           ret (json [("error", VStr "Valid question string is required")] (status 400 res))
         else if negb (truthy (documentID b)) then
           ret (json [("error", VStr "Document ID is required")] (status 400 res))
         else
           _ <- deref (fst clients) "Cannot read properties of undefined (reading 'embeddings')" ;;
           questionEmbedding <-
             call (EmbeddingsCreate "text-embedding-3-small" (question b))
                  (embeddings_create P "text-embedding-3-small" (question b)) ;;
           index <- deref (snd clients) "Cannot read properties of undefined (reading 'query')" ;;
           matches <- call (Query (index_name index) questionEmbedding 5 true)
                           (query P (index_name index) questionEmbedding 5 true) ;;
           let notFound :=
             ret (json [("error", VStr "No relevant context found"); ("question", question b)]
                       (status 404 res)) in
           match matches with
           | [] => notFound
           | bestMatch :: _ =>
               match List.find (fun m => strict_eq_string (m_id m) (documentID b)) matches with
               | Some exactMatch =>
                   (* line 175 logs the document id *)
                   interpolate (documentID b) ;;;
                   answer <- complete (strict_prompt (m_text exactMatch)) q ;;
                   ret (json [("question", question b); ("answer", VStr answer)] res)
               | None =>
                   (* line 202 logs the document id *)
                   interpolate (documentID b) ;;;
                   if Qle_bool (1 # 2) (m_score bestMatch) then
                     answer <- complete (lenient_prompt (m_text bestMatch)) q ;;
                     ret (json [("question", question b); ("answer", VStr answer)] res)
                   else notFound
               end
           end
     | _ =>
         (* [!question || typeof question !== 'string'] *)
         ret (json [("error", VStr "Valid question string is required")] (status 400 res))
     end)
    (fun error =>
       ret (json [("error", VStr "Failed to process question");
                  ("details", VStr (message error))] (status 500 res))).

(** *** Router (lines 248-285) *)

Definition handler (req : Request) (res : Response) : M Response :=
  let res := setCorsHeaders req res in
  if String.eqb (method req) "OPTIONS" then
    ret (end_ (status 200 res))
  else
    pathname <- deref (URL_pathname (url req) ("http://" +:+ str_or (host req) "localhost"))
                      "Invalid URL" ;;
    let path := normalize_path pathname in
    if String.eqb path "/" || String.eqb path "/health" then
      ret (handleHealth req res)
    else if String.eqb path "/embeddings" then
      if negb (String.eqb (method req) "POST") then
        ret (json [("error", VStr "Method not allowed")] (status 405 res))
      else handleEmbeddings req res
    else if String.eqb path "/ask" then
      if negb (String.eqb (method req) "POST") then
        ret (json [("error", VStr "Method not allowed")] (status 405 res))
      else handleAsk req res
    else
      ret (json [("error", VStr "Not found")] (status 404 res)).

End Backend.

(** ** Test doubles

    Concrete providers on which the model is run: a store that already has
    the index and answers every query with a fixed list of matches, and a
    language model that echoes the system message it received. *)

(** A reading of strings as numbers good enough for strings of decimal
    digits; the empty string reads as 0 and anything else as NaN. *)
Fixpoint decimal_digits (acc : Z) (s : string) : option Z :=
  match s with
  | EmptyString => Some acc
  | String c rest =>
      let n := nat_of_ascii c in
      if ((48 <=? n) && (n <=? 57))%nat
      then decimal_digits (10 * acc + Z.of_nat (n - 48)) rest
      else None
  end.

Definition decimal_number (s : string) : JsNumber :=
  match decimal_digits 0 s with
  | Some z => Finite (inject_Z z)
  | None => NaN
  end.

Definition stub_providers (matches : list Match) (now : N) : Providers :=
  {| new_OpenAI := fun k => Normal (mkOpenAI k);
     new_Pinecone := fun k => Normal (mkPinecone k);
     listIndexes := fun _ => Normal (Some ["text-embeddings"]);
     createIndex := fun _ _ _ _ _ _ => Normal tt;
     embeddings_create := fun _ _ _ => Normal [1%Q; 0%Q];
     upsert := fun _ _ _ _ _ => Normal tt;
     query := fun _ _ _ _ _ => Normal matches;
     chat_create := fun _ system _ _ _ _ => Normal system;
     Date_now := fun _ => now;
     Number_of_string := decimal_number |}.

(** A store whose listing fails on the first call and works afterwards. *)
Definition flaky_providers : Providers :=
  {| new_OpenAI := fun k => Normal (mkOpenAI k);
     new_Pinecone := fun k => Normal (mkPinecone k);
     listIndexes := fun h =>
       match h with
       | [] => Throw (mkError "PineconeConnectionError" "Request failed")
       | _ => Normal (Some ["text-embeddings"])
       end;
     createIndex := fun _ _ _ _ _ _ => Normal tt;
     embeddings_create := fun _ _ _ => Normal [1%Q; 0%Q];
     upsert := fun _ _ _ _ _ => Normal tt;
     query := fun _ _ _ _ _ => Normal [];
     chat_create := fun _ system _ _ _ _ => Normal system;
     Date_now := fun _ => 0;
     Number_of_string := decimal_number |}.

(** A URL parser good enough for request targets of the form
    [/path?query#fragment]: the path is what precedes the first [?] or
    [#]. *)
Fixpoint simple_pathname_aux (s : string) : string :=
  match s with
  | EmptyString => EmptyString
  | String c rest =>
      if Ascii.eqb c "?" || Ascii.eqb c "#" then EmptyString
      else String c (simple_pathname_aux rest)
  end.

Definition simple_pathname (url base : string) : option string :=
  Some (str_or (Some (simple_pathname_aux url)) "/").

Definition post (url : string) (b : Body) : Request :=
  mkRequest "POST" url (Some "example.test") None (Some b).

Definition ingest_body (t c : JsVal) : Body := mkBody t c VUndefined VUndefined.
Definition ask_body (q d : JsVal) : Body := mkBody VUndefined VUndefined q d.

Definition a_world : World :=
  mkWorld (Some (mkOpenAI None)) (Some (mkIndex "text-embeddings")) true [].

(** ** Reading an outcome *)

(** [obj.k] of a JSON object literal. *)
Fixpoint field (k : string) (obj : Json) : option JsVal :=
  match obj with
  | [] => None
  | (k', v) :: rest => if String.eqb k k' then Some v else field k rest
  end.

(** The calls a run added to the world, oldest first. *)
Definition new_calls (before after : World) (cs : list Call) : Prop :=
  calls after = rev cs ++ calls before.

(** The world after one more call. *)
Definition record (c : Call) (w : World) : World :=
  mkWorld (openai w) (pineconeIndex w) (pineconeInitialized w) (c :: calls w).

(** ** The responses of the handlers *)

(** The validation error of lines 94, 141 and 145. *)
Definition bad_request (msg : string) (res : Response) : Response :=
  json [("error", VStr msg)] (status 400 res).

Definition is_validation_error (r : Response) : Prop :=
  statusCode r = 400 /\ exists msg, sent r = Some [("error", VStr msg)].

(** ** The answer-resolution state machine *)

Inductive PromptVariant : Type := strict | lenient.

Inductive Resolution : Type :=
  | Answer (context : string) (variant : PromptVariant)
  | NotFound.

(** The states ExactMatch?, BestMatchCheck, Answer and NotFound of the
    query handler as the specification words them: an exact id match
    first (strict prompt), else the first match if it scores at least 0.5
    (lenient prompt), else not found.  [handleAsk_valid] below compares
    it with the code. *)
Definition resolve (matches : list Match) (documentID : JsVal) : Resolution :=
  match matches with
  | [] => NotFound
  | best :: _ =>
      match List.find (fun m => strict_eq_string (m_id m) documentID) matches with
      | Some exact => Answer (m_text exact) strict
      | None =>
          if Qle_bool (1 # 2) (m_score best)
          then Answer (m_text best) lenient
          else NotFound
      end
  end.

(** The system message of a resolution. *)
Definition prompt (variant : PromptVariant) (context : string) : string :=
  match variant with
  | strict => strict_prompt context
  | lenient => lenient_prompt context
  end.

(** [process.env.OPENAI_MODEL || "gpt-3.5-turbo"] *)
Definition chat_model (env : gmap string string) : string :=
  str_or (env !! "OPENAI_MODEL") "gpt-3.5-turbo".

(** The response of lines 233-236. *)
Definition not_found (q : string) (res : Response) : Response :=
  json [("error", VStr "No relevant context found"); ("question", VStr q)]
       (status 404 res).

(** The response of lines 197-200 and 224-227. *)
Definition answered (q a : string) (res : Response) : Response :=
  json [("question", VStr q); ("answer", VStr a)] res.

(** The success response of the ingestion handler (lines 118-122). *)
Definition answered_created (id shown : JsVal) (res : Response) : Response :=
  json [("success", VBool true); ("id", id); ("text", shown)] (status 201 res).

Definition embedding_model : string := "text-embedding-3-small".

(** ** Statements about the log lines *)

(** Line 97 does not throw: [text.length] converts to a string, and so
    does a truthy [chunkId]. *)
Definition chunk_logs (b : Body) : bool :=
  converts (length_value (text b)) &&
  (if truthy (chunkId b) then converts (chunkId b) else true).

(** Line 138 does not throw: the question and the documentID convert to
    strings. *)
Definition ask_logs (b : Body) : bool :=
  converts (question b) && converts (documentID b).

(** ** Statements about validation *)

(** A missing or empty text (line 93). *)
Definition invalid_ingest (b : Body) : Prop := truthy (text b) = false.

(** A missing or non-string question, or a missing documentID
    (lines 140 and 144). *)
Definition invalid_ask (b : Body) : Prop :=
  truthy (question b) && typeof_string (question b) = false \/
  truthy (documentID b) = false.

(** The specification's wording: a 400 and not one provider call before
    it. *)
Definition rejected_before_any_call (run : M Response) (w : World) : Prop :=
  exists r w', run w = (Normal r, w') /\ is_validation_error r /\ calls w' = calls w.

(** What the handlers do: initialise the clients, then validate. *)
Definition rejected_after_init (env : gmap string string) (P : Providers)
    (run : M Response) (w : World) : Prop :=
  exists r w' cs,
    run w = (Normal r, w') /\
    w' = snd (initClients env P w) /\
    new_calls w w' cs /\ forallb init_call cs = true /\
    (if is_normal (fst (initClients env P w))
     then is_validation_error r
     else statusCode r = 500) /\
    (is_Some (openai w) -> pineconeInitialized w = true ->
     w' = w /\ is_validation_error r).

(** ** Statements about client initialisation *)

Definition index_name_of (env : gmap string string) : string :=
  str_or (env !! "PINECONE_INDEX_NAME") "text-embeddings".

(** The SDK constructors that a run from [w] evaluates do not throw (the
    keys are configured). *)
Definition constructors_ok (env : gmap string string) (P : Providers)
    (w : World) : Prop :=
  (openai w = None -> is_normal (new_OpenAI P (env !! "OPENAI_API_KEY")) = true) /\
  is_normal (new_Pinecone P (env !! "PINECONE_API_KEY")) = true.

(** Listing throws [e], or it answers without the index and the creation
    throws [e]. *)
Definition listing_or_creation_fails (env : gmap string string) (P : Providers)
    (w : World) (e : Error) : Prop :=
  listIndexes P (calls w) = Throw e \/
  exists names,
    listIndexes P (calls w) = Normal names /\
    existsb (String.eqb (index_name_of env)) (default [] names) = false /\
    createIndex P (index_name_of env) 1536 "cosine"
      (str_or (env !! "PINECONE_CLOUD") "aws")
      (str_or (env !! "PINECONE_REGION") "us-east-1")
      (ListIndexes :: calls w) = Throw e.

(** ** Statements about ingestion *)

(** [chunkId || Date.now().toString()], the clock being read after the
    calls [h]. *)
Definition chosen_id (P : Providers) (chunkId : JsVal) (h : History) : JsVal :=
  if truthy chunkId then chunkId else VStr (toString (Date_now P h)).

(** The preview of a text that is a string. *)
Definition text_preview (s : string) : string :=
  if (100 <? String.length s)%nat then substring_to 100 s +:+ "..." else s.

(** ** Statements about answer resolution *)

(** The request passes the log line and the validation, the clients
    initialise, the question is embedded as [v] and the similarity search
    answers [ms]. *)
Definition search_returns (env : gmap string string) (P : Providers)
    (req : Request) (w : World) (b : Body) (q : string)
    (w1 : World) (idx : PineconeIndex) (v : Vector) (ms : list Match) : Prop :=
  body req = Some b /\
  question b = VStr q /\ q <> "" /\
  truthy (documentID b) = true /\
  converts (documentID b) = true /\
  (exists oa, initClients env P w = (Normal (Some oa, Some idx), w1)) /\
  embeddings_create P embedding_model (VStr q) (calls w1) = Normal v /\
  query P (index_name idx) v 5 true
        (EmbeddingsCreate embedding_model (VStr q) :: calls w1) = Normal ms.

(** The world once the embedding and the search were called. *)
Definition searched (q : string) (idx : PineconeIndex) (v : Vector) (w1 : World) : World :=
  record (Query (index_name idx) v 5 true)
    (record (EmbeddingsCreate embedding_model (VStr q)) w1).

(** The language model, called after the calls [h], answers whatever
    system message it is given for the question [q]. *)
Definition model_answers (env : gmap string string) (P : Providers)
    (q : string) (h : History) : Prop :=
  forall system,
    is_normal (chat_create P (chat_model env) system q (7 # 10) 500 h) = true.

(** The store returns its matches by descending score. *)
Definition descending (ms : list Match) : Prop :=
  StronglySorted (fun m1 m2 => (m_score m2 <= m_score m1)%Q) ms.

(** The score of the highest-scoring match. *)
Fixpoint highest_score (ms : list Match) : option Q :=
  match ms with
  | [] => None
  | m :: rest =>
      match highest_score rest with
      | None => Some (m_score m)
      | Some s => Some (Qminmax.Qmax (m_score m) s)
      end
  end.

(** No returned match carries the requested id. *)
Definition no_exact_match (ms : list Match) (documentID : JsVal) : Prop :=
  forall m, In m ms -> VStr (m_id m) <> documentID.

(** Nothing to answer from: no match was returned, or none has the
    requested id and the highest score is below 0.5. *)
Definition no_usable_match (ms : list Match) (documentID : JsVal) : Prop :=
  ms = [] \/
  (no_exact_match ms documentID /\
   exists s, highest_score ms = Some s /\ (s < 1 # 2)%Q).

(** ** Sample requests *)

Definition empty_text_request : Request :=
  post "/api/embeddings" (ingest_body (VStr "") VUndefined).

Definition evil_origin : string := "https://evil-localhost.example.com".

Definition evil_request : Request :=
  mkRequest "GET" "/api/health" None (Some evil_origin) None.

Definition configured_env : gmap string string :=
  {[ "FRONTEND_URL" := "https://app.example.com" ]}.

Definition clock_providers : Providers := stub_providers [] 1730000000000.

(** Providers whose clock advances by a millisecond with every call. *)
Definition ticking_providers : Providers :=
  {| new_OpenAI := new_OpenAI (stub_providers [] 0);
     new_Pinecone := new_Pinecone (stub_providers [] 0);
     listIndexes := listIndexes (stub_providers [] 0);
     createIndex := createIndex (stub_providers [] 0);
     embeddings_create := embeddings_create (stub_providers [] 0);
     upsert := upsert (stub_providers [] 0);
     query := query (stub_providers [] 0);
     chat_create := chat_create (stub_providers [] 0);
     Date_now := fun h => 1730000000000 + N.of_nat (List.length h);
     Number_of_string := decimal_number |}.

(** A text of 109 characters. *)
Definition long_text : string :=
  "0123456789012345678901234567890123456789012345678901234567890123456789012345678901234567890123456789-and-more".

Definition sky_question : string := "What color is the sky?".

Definition weak_matches : list Match :=
  [mkMatch "doc1" (3 # 10) "The sky is blue."; mkMatch "doc2" (1 # 10) "Grass is green."].

Definition good_matches : list Match :=
  [mkMatch "doc2" (8 # 10) "Grass is green."; mkMatch "doc1" (6 # 10) "The sky is blue."].

Definition ask (d : string) : Request :=
  post "/api/ask" (ask_body (VStr sky_question) (VStr d)).

Definition the_index : PineconeIndex := mkIndex "text-embeddings".

(** ** Further responses and statements about whole runs *)

(** The catch block of the ingestion handler (line 126). *)
Definition server_error (msg : string) (res : Response) : Response :=
  json [("error", VStr msg)] (status 500 res).

(** The catch block of the query handler (lines 240-243). *)
Definition ask_failed (details : string) (res : Response) : Response :=
  json [("error", VStr "Failed to process question"); ("details", VStr details)]
       (status 500 res).

(** The 405 of lines 272 and 278 and the 404 of line 283. *)
Definition method_not_allowed (res : Response) : Response :=
  json [("error", VStr "Method not allowed")] (status 405 res).

Definition route_not_found (res : Response) : Response :=
  json [("error", VStr "Not found")] (status 404 res).

(** The base against which the router parses [req.url] (line 259). *)
Definition url_base (req : Request) : string :=
  "http://" +:+ str_or (host req) "localhost".

(** The module variables are the same in both worlds. *)
Definition same_clients (w w' : World) : Prop :=
  openai w' = openai w /\
  pineconeIndex w' = pineconeIndex w /\
  pineconeInitialized w' = pineconeInitialized w.

(** What holds of the module variables in every world reached from a
    fresh module: a set flag comes with both clients. *)
Definition clients_ready (w : World) : Prop :=
  pineconeInitialized w = true ->
  is_Some (openai w) /\ is_Some (pineconeIndex w).

(** The calls an ingestion may add after initialisation, oldest first:
    one embedding, then one upsert. *)
Definition ingest_calls (cs : list Call) : bool :=
  match cs with
  | [] => true
  | [EmbeddingsCreate _ _] => true
  | [EmbeddingsCreate _ _; Upsert _ _ _ _] => true
  | _ => false
  end.

(** The calls a question may add after initialisation, oldest first: one
    embedding, then one query of the five nearest matches with their
    metadata, then one chat completion. *)
Definition ask_calls (cs : list Call) : bool :=
  match cs with
  | [] => true
  | [EmbeddingsCreate _ _] => true
  | [EmbeddingsCreate _ _; Query _ _ 5 true] => true
  | [EmbeddingsCreate _ _; Query _ _ 5 true; ChatCreate _ _ _ _ _] => true
  | _ => false
  end.

(** A run of [initClients] is its outcome followed by some calls. *)
Definition after_init (env : gmap string string) (P : Providers)
    (w w' : World) (shape : list Call -> bool) : Prop :=
  exists cs,
    same_clients (snd (initClients env P w)) w' /\
    new_calls (snd (initClients env P w)) w' cs /\
    shape cs = true.

(** An array of [n] strings, as a JSON text field. *)
Definition array_text (n : nat) : JsVal := VArr (repeat (VStr "chunk") n).

(** A configuration that names another index. *)
Definition notes_env : gmap string string :=
  {[ "PINECONE_INDEX_NAME" := "notes" ]}.

(** The ingestion request passes the validation and the log line, and
    the clients initialise, leaving the world [w1] and the index handle
    [idx]. *)
Definition ingest_ready (env : gmap string string) (P : Providers)
    (req : Request) (w : World) (b : Body) (w1 : World)
    (idx : PineconeIndex) : Prop :=
  body req = Some b /\
  truthy (text b) = true /\
  chunk_logs b = true /\
  exists oa, initClients env P w = (Normal (Some oa, Some idx), w1).

(** The world once the embedding of the text was called. *)
Definition embedded (b : Body) (w1 : World) : World :=
  record (EmbeddingsCreate embedding_model (text b)) w1.

(** The record the ingestion upserts: [{ id, values, metadata: { text } }]
    (lines 109-115), the id being chosen after the embedding call. *)
Definition upsert_of (P : Providers) (b : Body) (idx : PineconeIndex)
    (v : Vector) (w1 : World) : Call :=
  Upsert (index_name idx)
    (chosen_id P (chunkId b) (calls (embedded b w1))) v (text b).

(** Providers of which one operation is down. *)
Definition quota_error : Error := mkError "RateLimitError" "You exceeded your current quota".

Definition store_error : Error := mkError "PineconeConnectionError" "Request failed".

Definition embeddings_down : Providers :=
  {| new_OpenAI := new_OpenAI (stub_providers good_matches 0);
     new_Pinecone := new_Pinecone (stub_providers good_matches 0);
     listIndexes := listIndexes (stub_providers good_matches 0);
     createIndex := createIndex (stub_providers good_matches 0);
     embeddings_create := fun _ _ _ => Throw quota_error;
     upsert := upsert (stub_providers good_matches 0);
     query := query (stub_providers good_matches 0);
     chat_create := chat_create (stub_providers good_matches 0);
     Date_now := fun _ => 0;
     Number_of_string := decimal_number |}.

Definition store_down : Providers :=
  {| new_OpenAI := new_OpenAI (stub_providers good_matches 0);
     new_Pinecone := new_Pinecone (stub_providers good_matches 0);
     listIndexes := listIndexes (stub_providers good_matches 0);
     createIndex := createIndex (stub_providers good_matches 0);
     embeddings_create := embeddings_create (stub_providers good_matches 0);
     upsert := fun _ _ _ _ _ => Throw store_error;
     query := fun _ _ _ _ _ => Throw store_error;
     chat_create := chat_create (stub_providers good_matches 0);
     Date_now := fun _ => 0;
     Number_of_string := decimal_number |}.

Definition chat_down : Providers :=
  {| new_OpenAI := new_OpenAI (stub_providers good_matches 0);
     new_Pinecone := new_Pinecone (stub_providers good_matches 0);
     listIndexes := listIndexes (stub_providers good_matches 0);
     createIndex := createIndex (stub_providers good_matches 0);
     embeddings_create := embeddings_create (stub_providers good_matches 0);
     upsert := upsert (stub_providers good_matches 0);
     query := query (stub_providers good_matches 0);
     chat_create := fun _ _ _ _ _ _ => Throw quota_error;
     Date_now := fun _ => 0;
     Number_of_string := decimal_number |}.

Definition sky_ingest : Request :=
  post "/api/embeddings" (ingest_body (VStr "The sky is blue.") (VStr "doc1")).

(** The same request sent to another URL. *)
Definition with_url (u : string) (req : Request) : Request :=
  mkRequest (method req) u (host req) (origin req) (body req).

(** * Properties *)

(** ** Client initialisation *)

Ltac unfold_monad :=
  unfold bind, ret, throw, try_catch, get, lift, call, deref,
    set_openai, set_pineconeIndex, set_pineconeInitialized in *.

(** Case analysis on the innermost scrutinee of a run in hypothesis [H]. *)
Ltac step_in H :=
  match type of H with
  | context [match ?x with _ => _ end] =>
      lazymatch x with
      | context [match _ with _ => _ end] => fail
      | _ => destruct x eqn:?; simpl in H
      end
  end.

Section InitClients.

Context (env : gmap string string) (P : Providers).

(** The catch block of line 44 rethrows what it caught. *)
Lemma try_catch_rethrow {A} (m : M A) (w : World) :
  try_catch m (fun error => throw error) w = m w.
Proof.
  unfold try_catch, throw. destruct (m w) as [[a|e] w']; reflexivity.
Qed.

(** Once both clients are in place, [initClients] is a pure read. *)
Lemma initClients_ready (w : World) (o : OpenAI) :
  openai w = Some o ->
  pineconeInitialized w = true ->
  initClients env P w = (Normal (Some o, pineconeIndex w), w).
Proof.
  destruct w as [oa idx ini cs]; simpl; intros -> ->.
  reflexivity.
Qed.

(** Initialisation only ever lists and creates indexes. *)
Lemma initClients_calls (w w' : World) r :
  initClients env P w = (r, w') ->
  exists cs, new_calls w w' cs /\ forallb init_call cs = true.
Proof.
  unfold new_calls, initClients. destruct w as [oa idx ini cs]. unfold_monad; simpl.
  intros H.
  repeat step_in H;
  inversion H; subst; simpl;
  first [ by exists []
        | by exists [ListIndexes]
        | by eexists [ListIndexes; CreateIndex _ _ _ _ _] ].
Qed.

(** A successful initialisation hands out the two module variables, and
    the OpenAI client is always there. *)
Lemma initClients_clients (w w' : World) o i :
  initClients env P w = (Normal (o, i), w') ->
  o = openai w' /\ i = pineconeIndex w' /\ is_Some o /\
  (pineconeInitialized w = false -> is_Some i /\ pineconeInitialized w' = true).
Proof.
  unfold initClients. destruct w as [oa idx ini cs]. unfold_monad; simpl.
  intros H.
  repeat step_in H;
  inversion H; subst; simpl; repeat split; eauto;
    try discriminate; intros; subst; simpl in *; discriminate.
Qed.

(** A failed initialisation leaves the flag and the index handle as
    they were. *)
Lemma initClients_throw (w w' : World) e :
  initClients env P w = (Throw e, w') ->
  pineconeInitialized w' = pineconeInitialized w /\
  pineconeIndex w' = pineconeIndex w.
Proof.
  unfold initClients. destruct w as [oa idx ini cs]. unfold_monad; simpl.
  intros H.
  repeat step_in H;
  inversion H; subst; simpl; split; reflexivity.
Qed.

End InitClients.

(** ** The handlers, step by step *)

Section Handlers.

Context (env : gmap string string) (P : Providers).

(** Ingestion validates after the clients were initialised. *)
Lemma handleEmbeddings_invalid req res b w :
  body req = Some b ->
  invalid_ingest b ->
  handleEmbeddings env P req res w =
    match initClients env P w with
    | (Normal _, w') => (Normal (bad_request "Text content is required" res), w')
    | (Throw e, w') =>
        (Normal (json [("error", VStr (message e))] (status 500 res)), w')
    end.
Proof.
  unfold invalid_ingest, handleEmbeddings, destructure. intros Hb Ht.
  unfold try_catch at 1. unfold bind at 1.
  destruct (initClients env P w) as [[c|e] w']; [|reflexivity].
  rewrite Hb. unfold_monad. simpl. rewrite Ht. reflexivity.
Qed.

(** So does the query handler, for each of its two checks, once its log
    line went through. *)
Lemma handleAsk_invalid req res b w :
  body req = Some b ->
  invalid_ask b ->
  ask_logs b = true ->
  exists msg,
    handleAsk env P req res w =
      match initClients env P w with
      | (Normal _, w') => (Normal (bad_request msg res), w')
      | (Throw e, w') =>
          (Normal (json [("error", VStr "Failed to process question");
                         ("details", VStr (message e))] (status 500 res)), w')
      end.
Proof.
  unfold invalid_ask, ask_logs, handleAsk, destructure, interpolate.
  intros Hb Hq Hlog. apply andb_prop in Hlog as [Hcq Hcd].
  unfold try_catch at 1. unfold bind at 1.
  destruct (initClients env P w) as [[c|e] w']; [|by exists ""].
  rewrite Hb. unfold_monad. simpl. rewrite Hcq, Hcd. simpl.
  destruct (question b) as [| | |?|s|?|?] eqn:Eq;
    try (by eexists).
  simpl in *. rewrite andb_true_r in Hq.
  destruct Hq as [-> | Hd]; [by eexists|].
  destruct (negb (negb (s =? ""))%string); [by eexists|].
  rewrite Hd. by eexists.
Qed.

(** A valid question goes through embedding and search, and the matches
    decide what happens next exactly as [resolve] says. *)
Lemma handleAsk_valid req res b q w oa idx w1 v ms :
  body req = Some b ->
  question b = VStr q -> q <> "" ->
  truthy (documentID b) = true ->
  converts (documentID b) = true ->
  initClients env P w = (Normal (Some oa, Some idx), w1) ->
  embeddings_create P embedding_model (VStr q) (calls w1) = Normal v ->
  query P (index_name idx) v 5 true
        (EmbeddingsCreate embedding_model (VStr q) :: calls w1) = Normal ms ->
  let w2 := record (Query (index_name idx) v 5 true)
              (record (EmbeddingsCreate embedding_model (VStr q)) w1) in
  handleAsk env P req res w =
    match resolve ms (documentID b) with
    | NotFound => (Normal (not_found q res), w2)
    | Answer context variant =>
        let system := prompt variant context in
        let w3 := record (ChatCreate (chat_model env) system q (7 # 10) 500) w2 in
        match chat_create P (chat_model env) system q (7 # 10) 500 (calls w2) with
        | Normal a => (Normal (answered q a res), w3)
        | Throw e =>
            (Normal (json [("error", VStr "Failed to process question");
                           ("details", VStr (message e))] (status 500 res)), w3)
        end
    end.
Proof.
  intros Hb Hq Hne Hd Hcd Hinit Hemb Hquery. simpl.
  unfold handleAsk, destructure, interpolate, embedding_model in *.
  unfold try_catch at 1. unfold bind at 1. rewrite Hinit, Hb.
  unfold_monad. simpl. rewrite Hq, Hcd. simpl.
  assert (Hq' : (q =? "")%string = false) by (by apply String.eqb_neq).
  rewrite Hq', Hd. simpl. rewrite Hemb. simpl. rewrite Hquery.
  unfold resolve, complete, chat_model, record, not_found, answered. unfold_monad. simpl.
  destruct ms as [|best rest]; [reflexivity|].
  destruct (List.find _ (best :: rest)) as [exact|].
  - simpl. destruct (chat_create _ _ _ _ _ _ _); reflexivity.
  - destruct (Qle_bool _ _); [|reflexivity].
    simpl. destruct (chat_create _ _ _ _ _ _ _); reflexivity.
Qed.

End Handlers.

(** ** What a handler leaves of the response it was given *)

Section Headers.

Context (env : gmap string string) (P : Providers).

Local Arguments initClients : simpl never.

Lemma preview_world (t : JsVal) (w w' : World) c :
  preview P t w = (c, w') -> w' = w.
Proof.
  destruct t; simpl; unfold_monad; intros H;
    repeat step_in H; by inversion H.
Qed.

(** Logging changes nothing in the world. *)
Lemma interpolate_world (v : JsVal) (w w' : World) c :
  interpolate v w = (c, w') -> w' = w.
Proof.
  unfold interpolate. unfold_monad. intros H. step_in H; by inversion H.
Qed.

Lemma log_chunk_world (t k : JsVal) (w w' : World) c :
  log_chunk t k w = (c, w') -> w' = w.
Proof.
  unfold log_chunk, length_of, interpolate. unfold_monad. intros H.
  destruct t; simpl in H; repeat step_in H; by inversion H.
Qed.

(** Line 97 goes through exactly when [chunk_logs] says so. *)
Lemma log_chunk_ok (b : Body) (w : World) :
  truthy (text b) = true ->
  fst (log_chunk (text b) (chunkId b) w) = Normal tt <-> chunk_logs b = true.
Proof.
  unfold log_chunk, chunk_logs, length_of, interpolate. unfold_monad.
  intros Ht.
  destruct (text b); try discriminate Ht; simpl;
    repeat match goal with
    | |- context [if ?c then _ else _] => destruct c; simpl
    end; split; congruence.
Qed.

(** Every response of the ingestion handler is [res] with a status and
    a JSON body: the headers are those it came with. *)
Lemma handleEmbeddings_headers req res w r w' :
  handleEmbeddings env P req res w = (Normal r, w') ->
  headers r = headers res /\ ended r = true.
Proof.
  unfold handleEmbeddings, destructure, Date_now_. unfold_monad. intros H.
  destruct (initClients env P w) as [[c|e] w1]; simpl in H.
  - repeat step_in H; by inversion H.
  - by inversion H.
Qed.

Lemma handleAsk_headers req res w r w' :
  handleAsk env P req res w = (Normal r, w') ->
  headers r = headers res /\ ended r = true.
Proof.
  unfold handleAsk, destructure, complete. unfold_monad. intros H.
  destruct (initClients env P w) as [[c|e] w1]; simpl in H.
  - repeat step_in H; by inversion H.
  - by inversion H.
Qed.

(** The router sets the CORS headers first and nothing replaces them. *)
Lemma handler_headers U req res w r w' :
  handler env P U req res w = (Normal r, w') ->
  headers r = headers (setCorsHeaders env req res) /\ ended r = true.
Proof.
  unfold handler, handleHealth. unfold_monad. intros H.
  destruct (method req =? "OPTIONS")%string; [by inversion H|].
  destruct (U _ _) as [pathname|]; simpl in H; [|discriminate].
  repeat match type of H with
  | context [if ?c then _ else _] => destruct c eqn:?
  end;
  first [ by inversion H
        | by apply handleEmbeddings_headers in H
        | by apply handleAsk_headers in H ].
Qed.

End Headers.

(** ** Validation (C1) *)

(** C1, refuted as stated: on a freshly loaded module a request with an
    empty text is answered 400 only after the index listing was called,
    and when that listing fails the answer is a 500. *)
Lemma validation_before_any_call_counterexample :
  invalid_ingest (ingest_body (VStr "") VUndefined) /\
  ~ rejected_before_any_call
      (handleEmbeddings ∅ (stub_providers [] 0) empty_text_request new_response)
      fresh_world /\
  ~ rejected_before_any_call
      (handleEmbeddings ∅ flaky_providers empty_text_request new_response)
      fresh_world.
Proof.
  split; [reflexivity|].
  split; intros (r & w' & Hrun & Hr & Hcalls).
  - vm_compute in Hrun. inversion Hrun; subst. discriminate Hcalls.
  - vm_compute in Hrun. inversion Hrun; subst.
    destruct Hr as [Hstatus _]. discriminate Hstatus.
Qed.

(** C1, amended: for a request whose body is an object, with a missing
    or empty text (ingestion), or with a missing or non-string question
    or a missing documentID, both of which the log line of line 138 can
    convert to strings (answer), the handler first initialises the
    clients.  The calls it makes are those of initialisation only, index
    listing and creation, and none at all once the clients are
    initialised; when initialisation succeeds the response is the 400
    validation error, when it throws the response is a 500.  (A question
    or documentID that cannot be converted, an object with an own
    [toString] key, is left out.) *)
Theorem validation_rejected_after_init env P req res b w :
  body req = Some b ->
  (invalid_ingest b ->
   rejected_after_init env P (handleEmbeddings env P req res) w) /\
  (invalid_ask b -> ask_logs b = true ->
   rejected_after_init env P (handleAsk env P req res) w).
Proof.
  intros Hb.
  assert (Hready : forall r' w', is_Some (openai w) -> pineconeInitialized w = true ->
            initClients env P w = (r', w') -> w' = w /\ is_normal r' = true).
  { intros r' w' [o Ho] Hi Hrun.
    rewrite (initClients_ready env P w o Ho Hi) in Hrun. by inversion Hrun. }
  unfold rejected_after_init.
  split; [intros Hbad | intros Hbad Hlog].
  - pose proof (handleEmbeddings_invalid env P req res b w Hb Hbad) as Hrun.
    destruct (initClients env P w) as [c w1] eqn:Hinit.
    destruct (initClients_calls env P w w1 c Hinit) as (cs & Hcs & Hall).
    destruct c as [c|e]; eexists _, w1, cs;
      (split; [exact Hrun|]); (split; [reflexivity|]);
      (split; [exact Hcs|]); (split; [exact Hall|]); split; simpl.
    + split; [reflexivity | by eexists].
    + intros Ho Hi. destruct (Hready _ _ Ho Hi eq_refl) as [Hw _].
      repeat split; [exact Hw | by eexists].
    + reflexivity.
    + intros Ho Hi. destruct (Hready _ _ Ho Hi eq_refl) as [_ Hn].
      discriminate Hn.
  - destruct (handleAsk_invalid env P req res b w Hb Hbad Hlog) as [msg Hrun].
    destruct (initClients env P w) as [c w1] eqn:Hinit.
    destruct (initClients_calls env P w w1 c Hinit) as (cs & Hcs & Hall).
    destruct c as [c|e]; eexists _, w1, cs;
      (split; [exact Hrun|]); (split; [reflexivity|]);
      (split; [exact Hcs|]); (split; [exact Hall|]); split; simpl.
    + split; [reflexivity | by eexists].
    + intros Ho Hi. destruct (Hready _ _ Ho Hi eq_refl) as [Hw _].
      repeat split; [exact Hw | by eexists].
    + reflexivity.
    + intros Ho Hi. destruct (Hready _ _ Ho Hi eq_refl) as [_ Hn].
      discriminate Hn.
Qed.

Lemma validation_rejected_after_init_witness :
  rejected_after_init ∅ (stub_providers [] 0)
    (handleEmbeddings ∅ (stub_providers [] 0) empty_text_request new_response)
    a_world /\
  rejected_after_init ∅ (stub_providers [] 0)
    (handleAsk ∅ (stub_providers [] 0)
       (post "/api/ask" (ask_body (VObj [("text", VStr sky_question)]) (VStr "doc1")))
       new_response)
    fresh_world.
Proof.
  split.
  - apply (validation_rejected_after_init ∅ (stub_providers [] 0)
             empty_text_request new_response
             (ingest_body (VStr "") VUndefined) a_world); reflexivity.
  - apply (validation_rejected_after_init ∅ (stub_providers [] 0)
             (post "/api/ask"
                (ask_body (VObj [("text", VStr sky_question)]) (VStr "doc1")))
             new_response
             (ask_body (VObj [("text", VStr sky_question)]) (VStr "doc1"))
             fresh_world);
      [reflexivity | left; reflexivity | reflexivity].
Defined.

(** ** Router and CORS (C8, C9, C10) *)

(** The prefix is dropped once, and only at the front. *)
Example normalize_path_examples :
  normalize_path "/api/health" = "/health" /\
  normalize_path "/api" = "/" /\
  normalize_path "/health" = "/health" /\
  normalize_path "/apihealth" = "health" /\
  normalize_path "/api/api/ask" = "/api/ask" /\
  normalize_path "/v1/api/ask" = "/v1/api/ask".
Proof. repeat split. Qed.

Section Router.

Context (env : gmap string string) (P : Providers)
        (U : string -> string -> option string).

(** The three fixed CORS headers, whatever the origin. *)
Lemma setCorsHeaders_fixed req res :
  let h := headers (setCorsHeaders env req res) in
  h !! "Access-Control-Allow-Credentials" = Some "true" /\
  h !! "Access-Control-Allow-Methods" = Some cors_methods /\
  h !! "Access-Control-Allow-Headers" = Some cors_headers /\
  is_Some (h !! "Access-Control-Allow-Origin").
Proof.
  unfold setCorsHeaders, setHeader. simpl.
  repeat split; try (by simplify_map_eq).
  repeat match goal with
  | |- context [if ?c then _ else _] => destruct c
  end; simpl; simplify_map_eq; eauto.
Qed.

(** An origin that contains a substring is not empty. *)
Lemma includes_nonempty needle o :
  needle <> "" -> includes needle o = true -> (o =? "")%string = false.
Proof.
  intros Hn. destruct o; [|reflexivity].
  simpl. destruct needle; [congruence|discriminate].
Qed.

Lemma setCorsHeaders_local_origin req res o :
  origin req = Some o ->
  includes "localhost" o = true \/ includes "127.0.0.1" o = true ->
  headers (setCorsHeaders env req res) !! "Access-Control-Allow-Origin" = Some o.
Proof.
  intros Ho Hinc. unfold setCorsHeaders, origin_allowed. rewrite Ho.
  assert (Hne : (o =? "")%string = false)
    by (destruct Hinc as [H|H]; eapply includes_nonempty; eauto; discriminate).
  rewrite Hne. simpl negb.
  assert (Hor : includes "localhost" o || includes "127.0.0.1" o = true)
    by (destruct Hinc as [-> | ->]; [reflexivity | apply orb_true_r]).
  rewrite Hor. unfold setHeader. simpl. by simplify_map_eq.
Qed.

End Router.

(** C8: a request whose method is OPTIONS, whatever its path, is answered
    with status 200, no body and the CORS headers set; no routing happens
    (the URL is not even parsed), no handler runs and the world, its
    clients and its list of calls, is untouched. *)
Theorem options_preflight env P U req res w :
  method req = "OPTIONS" ->
  sent res = None ->
  exists r,
    handler env P U req res w = (Normal r, w) /\
    statusCode r = 200 /\ sent r = None /\ ended r = true /\
    headers r = headers (setCorsHeaders env req res) /\
    headers r !! "Access-Control-Allow-Credentials" = Some "true" /\
    headers r !! "Access-Control-Allow-Methods" = Some cors_methods /\
    headers r !! "Access-Control-Allow-Headers" = Some cors_headers /\
    is_Some (headers r !! "Access-Control-Allow-Origin").
Proof.
  intros Hm Hsent. unfold handler. rewrite Hm. simpl.
  eexists. split; [reflexivity|].
  destruct (setCorsHeaders_fixed env req res) as (Hc & Hme & Hh & Ho).
  simpl. repeat split; try assumption.
  unfold setCorsHeaders, setHeader; simpl.
  repeat match goal with
  | |- context [if ?c then _ else _] => destruct c
  end; exact Hsent.
Qed.

Lemma options_preflight_witness :
  exists r,
    handler ∅ flaky_providers (fun _ _ => None)
      (mkRequest "OPTIONS" "/api/ask" None (Some "http://localhost:5173") None)
      new_response fresh_world = (Normal r, fresh_world) /\
    statusCode r = 200 /\ sent r = None /\ ended r = true /\
    headers r = headers (setCorsHeaders ∅
      (mkRequest "OPTIONS" "/api/ask" None (Some "http://localhost:5173") None)
      new_response) /\
    headers r !! "Access-Control-Allow-Credentials" = Some "true" /\
    headers r !! "Access-Control-Allow-Methods" = Some cors_methods /\
    headers r !! "Access-Control-Allow-Headers" = Some cors_headers /\
    is_Some (headers r !! "Access-Control-Allow-Origin").
Proof.
  apply (options_preflight ∅ flaky_providers (fun _ _ => None)
           (mkRequest "OPTIONS" "/api/ask" None (Some "http://localhost:5173") None)
           new_response fresh_world); reflexivity.
Defined.

(** C9: the router sends the normalized paths [/] and [/health] to the
    health handler without looking at the method: every request that is
    not OPTIONS, POST, PUT and DELETE included, gets 200 with
    [{status: "ok"}], and no provider is called. *)
Theorem health_ignores_method env P U req res w pathname :
  method req <> "OPTIONS" ->
  U (url req) ("http://" +:+ str_or (host req) "localhost") = Some pathname ->
  normalize_path pathname = "/" \/ normalize_path pathname = "/health" ->
  exists r,
    handler env P U req res w = (Normal r, w) /\
    r = handleHealth req (setCorsHeaders env req res) /\
    statusCode r = 200 /\ sent r = Some [("status", VStr "ok")].
Proof.
  intros Hm HU Hp. unfold handler.
  apply String.eqb_neq in Hm. rewrite Hm, HU. unfold_monad. simpl.
  assert (Hor : (normalize_path pathname =? "/")%string ||
                (normalize_path pathname =? "/health")%string = true).
  { destruct Hp as [-> | ->]; reflexivity. }
  rewrite Hor. eexists. repeat split.
Qed.

Lemma health_ignores_method_witness :
  exists r,
    handler ∅ flaky_providers simple_pathname
      (mkRequest "DELETE" "/api/health?probe=1" (Some "example.test") None None)
      new_response fresh_world = (Normal r, fresh_world) /\
    r = handleHealth
          (mkRequest "DELETE" "/api/health?probe=1" (Some "example.test") None None)
          (setCorsHeaders ∅
             (mkRequest "DELETE" "/api/health?probe=1" (Some "example.test") None None)
             new_response) /\
    statusCode r = 200 /\ sent r = Some [("status", VStr "ok")].
Proof.
  apply (health_ignores_method ∅ flaky_providers simple_pathname
           (mkRequest "DELETE" "/api/health?probe=1" (Some "example.test") None None)
           new_response fresh_world "/api/health");
    [discriminate | reflexivity | right; reflexivity].
Defined.

(** C10: the origin is matched by substring.  Whenever the Origin header
    contains [localhost] or [127.0.0.1] anywhere, third-party hosts such
    as [https://evil-localhost.example.com] included, every response of
    the router echoes that origin in Access-Control-Allow-Origin and sets
    Access-Control-Allow-Credentials to [true], whatever FRONTEND_URL is. *)
Theorem cors_origin_by_substring env P U req res o :
  origin req = Some o ->
  includes "localhost" o = true \/ includes "127.0.0.1" o = true ->
  let h := headers (setCorsHeaders env req res) in
  (h !! "Access-Control-Allow-Origin" = Some o /\
   h !! "Access-Control-Allow-Credentials" = Some "true") /\
  forall w r w',
    handler env P U req res w = (Normal r, w') ->
    headers r !! "Access-Control-Allow-Origin" = Some o /\
    headers r !! "Access-Control-Allow-Credentials" = Some "true".
Proof.
  intros Ho Hinc h.
  assert (Hh : h !! "Access-Control-Allow-Origin" = Some o /\
               h !! "Access-Control-Allow-Credentials" = Some "true").
  { split; [by apply setCorsHeaders_local_origin|].
    apply (setCorsHeaders_fixed env req res). }
  split; [exact Hh|].
  intros w r w' Hrun.
  destruct (handler_headers env P U req res w r w' Hrun) as [-> _].
  exact Hh.
Qed.

Lemma cors_origin_by_substring_witness :
  (headers (setCorsHeaders configured_env evil_request new_response)
     !! "Access-Control-Allow-Origin" = Some evil_origin /\
   headers (setCorsHeaders configured_env evil_request new_response)
     !! "Access-Control-Allow-Credentials" = Some "true") /\
  forall w r w',
    handler configured_env flaky_providers simple_pathname evil_request
      new_response w = (Normal r, w') ->
    headers r !! "Access-Control-Allow-Origin" = Some evil_origin /\
    headers r !! "Access-Control-Allow-Credentials" = Some "true".
Proof.
  apply (cors_origin_by_substring configured_env flaky_providers simple_pathname
           evil_request new_response evil_origin);
    [reflexivity | left; reflexivity].
Defined.

(** ** Failed initialisation (C7) *)

(** The first thing a run of [initClients] asks the store, when the flag
    is unset, is the list of indexes. *)
(** Evaluates the two constructors of a run from the world [oa, ...],
    given [Ho] and [Hp] from [constructors_ok]. *)
Ltac construct_clients oa Ho Hp :=
  destruct oa as [?|]; simpl in *;
  [| specialize (Ho eq_refl);
     destruct (new_OpenAI _ _) as [?|]; [|discriminate Ho]; simpl ];
  (destruct (new_Pinecone _ _) as [?|]; [|discriminate Hp]; simpl).

Lemma initClients_attempts env P w :
  pineconeInitialized w = false ->
  constructors_ok env P w ->
  exists c w' cs,
    initClients env P w = (c, w') /\ new_calls w w' (ListIndexes :: cs).
Proof.
  intros Hi [Ho Hp]. unfold new_calls, initClients.
  destruct w as [oa idx ini cs]. simpl in *. subst ini. unfold_monad. simpl.
  construct_clients oa Ho Hp;
    (destruct (listIndexes P cs) as [names|e]; simpl;
     [ destruct (negb (existsb _ _)); simpl;
       [ destruct (createIndex _ _ _ _ _ _ _) | ] | ]);
    first [ by eexists _, _, [] | by eexists _, _, [CreateIndex _ _ _ _ _] ].
Qed.

(** With the index listed, initialisation completes and sets the flag. *)
Lemma initClients_completes env P w names :
  pineconeInitialized w = false ->
  constructors_ok env P w ->
  listIndexes P (calls w) = Normal (Some names) ->
  existsb (String.eqb (index_name_of env)) names = true ->
  exists o w',
    initClients env P w = (Normal (Some o, Some (mkIndex (index_name_of env))), w') /\
    pineconeInitialized w' = true /\ calls w' = ListIndexes :: calls w.
Proof.
  intros Hi [Ho Hp] Hl Hex. unfold initClients, index_name_of in *.
  destruct w as [oa idx ini cs]. simpl in *. subst ini. unfold_monad. simpl.
  construct_clients oa Ho Hp;
    rewrite Hl; simpl; rewrite Hex; simpl; by eexists _, _.
Qed.

(** C7: when the index listing or the index creation fails during client
    initialisation, the same error is thrown to the caller, and the
    initialisation flag stays unset and the index handle unassigned (the
    OpenAI client, built before, is kept).  The next run therefore asks
    for the index list again, and completes if the store then answers. *)
Theorem init_failure_is_retried env P w e :
  pineconeInitialized w = false ->
  constructors_ok env P w ->
  listing_or_creation_fails env P w e ->
  exists w',
    initClients env P w = (Throw e, w') /\
    pineconeInitialized w' = false /\
    pineconeIndex w' = pineconeIndex w /\
    is_Some (openai w') /\
    (exists c w'' cs,
       initClients env P w' = (c, w'') /\ new_calls w' w'' (ListIndexes :: cs)) /\
    (forall names,
       listIndexes P (calls w') = Normal (Some names) ->
       existsb (String.eqb (index_name_of env)) names = true ->
       exists o w'',
         initClients env P w' =
           (Normal (Some o, Some (mkIndex (index_name_of env))), w'') /\
         pineconeInitialized w'' = true).
Proof.
  intros Hi Hok Hfail.
  assert (Hrun : exists w', initClients env P w = (Throw e, w') /\ is_Some (openai w')).
  { destruct Hok as [Ho Hp]. unfold listing_or_creation_fails, index_name_of in Hfail.
    unfold initClients. destruct w as [oa idx ini cs]. simpl in *. subst ini.
    unfold_monad. simpl.
    destruct Hfail as [Hl | (names & Hl & Hex & Hc)];
      construct_clients oa Ho Hp; rewrite Hl; simpl;
      rewrite ?Hex; simpl; rewrite ?Hc; simpl; by eexists. }
  destruct Hrun as (w' & Hrun & Hoa).
  destruct (initClients_throw env P w w' e Hrun) as [Hflag Hidx].
  rewrite Hi in Hflag.
  assert (Hok' : constructors_ok env P w').
  { destruct Hok as [_ Hp]. split; [|exact Hp].
    destruct Hoa as [o Ho]. rewrite Ho. discriminate. }
  exists w'. repeat split; try assumption.
  - by apply initClients_attempts.
  - intros names Hl Hex.
    destruct (initClients_completes env P w' names Hflag Hok' Hl Hex)
      as (o & w'' & H1 & H2 & _).
    by exists o, w''.
Qed.

Lemma init_failure_is_retried_witness :
  exists w',
    initClients ∅ flaky_providers fresh_world =
      (Throw (mkError "PineconeConnectionError" "Request failed"), w') /\
    pineconeInitialized w' = false /\
    pineconeIndex w' = pineconeIndex fresh_world /\
    is_Some (openai w') /\
    (exists c w'' cs,
       initClients ∅ flaky_providers w' = (c, w'') /\
       new_calls w' w'' (ListIndexes :: cs)) /\
    (forall names,
       listIndexes flaky_providers (calls w') = Normal (Some names) ->
       existsb (String.eqb (index_name_of ∅)) names = true ->
       exists o w'',
         initClients ∅ flaky_providers w' =
           (Normal (Some o, Some (mkIndex (index_name_of ∅))), w'') /\
         pineconeInitialized w'' = true).
Proof.
  apply (init_failure_is_retried ∅ flaky_providers fresh_world
           (mkError "PineconeConnectionError" "Request failed"));
    [reflexivity | split; reflexivity | left; reflexivity].
Defined.

(** The recovery, run: the listing fails once, the second request
    initialises the clients and is served. *)
Example flaky_store_recovers :
  exists r1 w1 r2 w2,
    handleEmbeddings ∅ flaky_providers
      (post "/api/embeddings" (ingest_body (VStr "The sky is blue.") (VStr "doc1")))
      new_response fresh_world = (Normal r1, w1) /\
    statusCode r1 = 500 /\ pineconeInitialized w1 = false /\
    handleEmbeddings ∅ flaky_providers
      (post "/api/embeddings" (ingest_body (VStr "The sky is blue.") (VStr "doc1")))
      new_response w1 = (Normal r2, w2) /\
    statusCode r2 = 201 /\ pineconeInitialized w2 = true.
Proof. by eexists _, _, _, _; vm_compute. Qed.

(** ** Ingestion: identifier and preview (C5, C6) *)

Section Ingestion.

Context (env : gmap string string) (P : Providers).

Local Arguments initClients : simpl never.
Local Arguments preview : simpl never.
Local Arguments log_chunk : simpl never.
Local Arguments interpolate : simpl never.

(** The shape of every 201 response. *)
Lemma handleEmbeddings_created req res w r w' :
  handleEmbeddings env P req res w = (Normal r, w') ->
  statusCode r = 201 ->
  exists b shown,
    body req = Some b /\ truthy (text b) = true /\
    fst (preview P (text b) w') = Normal shown /\
    sent r = Some [("success", VBool true);
                   ("id", chosen_id P (chunkId b)
                            (calls (embedded b (snd (initClients env P w)))));
                   ("text", shown)].
Proof.
  unfold handleEmbeddings, destructure, Date_now_, chosen_id, embedded, record.
  unfold_monad. intros H Hs.
  destruct (initClients env P w) as [[c|e] w1]; simpl in H |- *;
    [|inversion H; subst; discriminate Hs].
  destruct (body req) as [b|]; simpl in H;
    [|inversion H; subst; discriminate Hs].
  exists b.
  repeat step_in H; inversion H; subst; try discriminate Hs;
    repeat match goal with
    | Hl : log_chunk _ _ _ = (_, _) |- _ => apply log_chunk_world in Hl; subst
    | Hi : interpolate _ _ = (_, _) |- _ => apply interpolate_world in Hi; subst
    end;
    match goal with
    | Hp : preview _ _ ?w0 = (Normal ?v, ?w1) |- _ =>
        pose proof (preview_world _ _ _ _ _ Hp); subst;
        exists v; rewrite Hp
    end;
    repeat split; try reflexivity; by destruct (truthy (text b)).
Qed.

(** [substring(0, 100)] of a longer string is its first 100 code units. *)
Lemma substring_to_prefix (n : nat) (s : string) :
  (n <= String.length s)%nat ->
  exists rest, s = substring_to n s +:+ rest /\
               String.length (substring_to n s) = n.
Proof.
  unfold substring_to. revert s.
  induction n as [|n IH]; intros s Hlen.
  - exists s. by destruct s.
  - destruct s as [|c s]; simpl in *; [lia|].
    destruct (IH s ltac:(lia)) as (rest & Hs & Hl).
    exists rest. split; [| by rewrite Hl].
    change (String c s = String c (substring 0 n s +:+ rest)). by rewrite <- Hs.
Qed.

End Ingestion.

(** C5, refuted as stated: a caller who provides the empty string as
    [chunkId] gets a clock-derived id back, not the id it sent. *)
Lemma ingestion_id_counterexample :
  exists r w',
    handleEmbeddings ∅ clock_providers
      (post "/api/embeddings" (ingest_body (VStr "The sky is blue.") (VStr "")))
      new_response fresh_world = (Normal r, w') /\
    statusCode r = 201 /\
    (sent r ≫= field "id") = Some (VStr "1730000000000") /\
    (sent r ≫= field "id") <> Some (VStr "").
Proof. by eexists _, _; vm_compute. Qed.

(** C5, amended: in every successful ingestion (201) the returned id is
    [chunkId] whenever [chunkId] is truthy, that is provided and not the
    empty string, null, 0 or false, and otherwise it is the decimal
    rendering of the current time, [Date.now().toString()], the clock
    being read at line 106, right after the embedding call of this
    request. *)
Theorem ingestion_id env P req res w r w' :
  handleEmbeddings env P req res w = (Normal r, w') ->
  statusCode r = 201 ->
  exists b,
    body req = Some b /\
    (truthy (chunkId b) = true -> (sent r ≫= field "id") = Some (chunkId b)) /\
    (truthy (chunkId b) = false ->
     (sent r ≫= field "id") =
       Some (VStr (toString
               (Date_now P
                  (EmbeddingsCreate embedding_model (text b)
                     :: calls (snd (initClients env P w))))))).
Proof.
  intros Hrun Hs.
  destruct (handleEmbeddings_created env P req res w r w' Hrun Hs)
    as (b & shown & Hb & _ & _ & Hsent).
  exists b. rewrite Hsent. unfold chosen_id, embedded, record. simpl.
  split; [exact Hb|]. split; intros ->; reflexivity.
Qed.

Lemma ingestion_id_witness :
  (sent (answered_created (VStr "doc1") (VStr "The sky is blue.") new_response)
     ≫= field "id") = Some (VStr "doc1") /\
  (sent (answered_created (VStr "1730000000002") (VStr "The sky is blue.") new_response)
     ≫= field "id") = Some (VStr "1730000000002").
Proof.
  split.
  - destruct (ingestion_id ∅ ticking_providers sky_ingest new_response a_world
                (answered_created (VStr "doc1") (VStr "The sky is blue.") new_response)
                (record (Upsert "text-embeddings" (VStr "doc1") [1%Q; 0%Q]
                           (VStr "The sky is blue."))
                   (record (EmbeddingsCreate embedding_model (VStr "The sky is blue."))
                      a_world)))
      as (b & Hb & Hgiven & _); [reflexivity | reflexivity |].
    inversion Hb; subst b. exact (Hgiven eq_refl).
  - destruct (ingestion_id ∅ ticking_providers
                (post "/api/embeddings" (ingest_body (VStr "The sky is blue.") VUndefined))
                new_response fresh_world
                (answered_created (VStr "1730000000002") (VStr "The sky is blue.")
                   new_response)
                (record (Upsert "text-embeddings" (VStr "1730000000002") [1%Q; 0%Q]
                           (VStr "The sky is blue."))
                   (record (EmbeddingsCreate embedding_model (VStr "The sky is blue."))
                      (mkWorld (Some (mkOpenAI None)) (Some the_index) true
                         [ListIndexes]))))
      as (b & Hb & _ & Hclock); [vm_compute; reflexivity | reflexivity |].
    inversion Hb; subst b. exact (Hclock eq_refl).
Defined.

(** Two ingestions without [chunkId] in the same millisecond are given the
    same id: the clock-derived token is not unique by itself. *)
Example same_millisecond_same_id :
  exists r1 w1 r2 w2,
    handleEmbeddings ∅ clock_providers
      (post "/api/embeddings" (ingest_body (VStr "first") VUndefined))
      new_response fresh_world = (Normal r1, w1) /\
    handleEmbeddings ∅ clock_providers
      (post "/api/embeddings" (ingest_body (VStr "second") VUndefined))
      new_response w1 = (Normal r2, w2) /\
    statusCode r1 = 201 /\ statusCode r2 = 201 /\
    (sent r1 ≫= field "id") = (sent r2 ≫= field "id").
Proof. by eexists _, _, _, _; vm_compute. Qed.

(** C6: in every successful ingestion (201) of a text that is a string,
    the returned preview is the text itself when it has at most 100
    characters, and otherwise its first 100 characters followed by
    [...]. *)
Theorem ingestion_preview env P req res w r w' :
  handleEmbeddings env P req res w = (Normal r, w') ->
  statusCode r = 201 ->
  exists b,
    body req = Some b /\
    forall s, text b = VStr s ->
      (sent r ≫= field "text") = Some (VStr (text_preview s)) /\
      ((String.length s <= 100)%nat -> text_preview s = s) /\
      ((100 < String.length s)%nat ->
       exists first rest,
         s = first +:+ rest /\ String.length first = 100%nat /\
         text_preview s = first +:+ "...").
Proof.
  intros Hrun Hs.
  destruct (handleEmbeddings_created env P req res w r w' Hrun Hs)
    as (b & shown & Hb & _ & Hshown & Hsent).
  exists b. split; [exact Hb|]. intros s Ht.
  rewrite Hsent, Ht in *. unfold text_preview. simpl in *.
  repeat split.
  - destruct (100 <? String.length s)%nat; simpl in Hshown; congruence.
  - intros Hle. apply Nat.ltb_ge in Hle. by rewrite Hle.
  - intros Hlt.
    destruct (substring_to_prefix 100 s ltac:(lia)) as (rest & Hrest & Hlen).
    exists (substring_to 100 s), rest.
    apply Nat.ltb_lt in Hlt. by rewrite Hlt.
Qed.

Lemma ingestion_preview_witness :
  exists b,
    body (post "/api/embeddings" (ingest_body (VStr long_text) (VStr "doc1"))) = Some b /\
    forall s, text b = VStr s ->
      (sent (answered_created (VStr "doc1")
               (VStr (substring_to 100 long_text +:+ "...")) new_response)
         ≫= field "text") = Some (VStr (text_preview s)) /\
      ((String.length s <= 100)%nat -> text_preview s = s) /\
      ((100 < String.length s)%nat ->
       exists first rest,
         s = first +:+ rest /\ String.length first = 100%nat /\
         text_preview s = first +:+ "...").
Proof.
  apply (ingestion_preview ∅ clock_providers
           (post "/api/embeddings" (ingest_body (VStr long_text) (VStr "doc1")))
           new_response a_world
           (answered_created (VStr "doc1")
              (VStr (substring_to 100 long_text +:+ "...")) new_response)
           (record (Upsert "text-embeddings" (VStr "doc1") [1%Q; 0%Q] (VStr long_text))
              (record (EmbeddingsCreate embedding_model (VStr long_text)) a_world)));
    reflexivity.
Defined.

(** ** Answer resolution (C2, C3, C4) *)

Section Resolution.

Lemma strict_eq_string_true id d :
strict_eq_string id d = true <-> VStr id = d.
Proof.
destruct d; simpl; try (split; [discriminate | congruence]).
rewrite String.eqb_eq. split; congruence.
Qed.

Lemma find_exact_none ms d :
List.find (fun m => strict_eq_string (m_id m) d) ms = None <->
no_exact_match ms d.
Proof.
unfold no_exact_match. split.
- intros Hf m Hin Heq.
  pose proof (find_none _ _ Hf m Hin) as Hn. simpl in Hn.
  apply strict_eq_string_true in Heq. congruence.
- intros Hno. destruct (List.find _ ms) as [m|] eqn:Hf; [|reflexivity].
  apply find_some in Hf as [Hin Heq].
  apply strict_eq_string_true in Heq. by destruct (Hno m Hin).
Qed.

Lemma highest_score_upper ms s bound :
highest_score ms = Some s ->
(forall m, In m ms -> (m_score m <= bound)%Q) ->
(s <= bound)%Q.
Proof.
revert s. induction ms as [|m rest IH]; intros s Hs Hall; [discriminate|].
simpl in Hs. destruct (highest_score rest) as [s'|].
- inversion Hs; subst. apply Qminmax.Q.max_lub.
  + apply Hall. by left.
  + apply IH; [reflexivity|]. intros m' Hin. apply Hall. by right.
- inversion Hs; subst. apply Hall. by left.
Qed.

(** In a descending list the first score is the highest. *)
Lemma highest_score_head best rest :
descending (best :: rest) ->
exists s, highest_score (best :: rest) = Some s /\ (s == m_score best)%Q.
Proof.
intros Hd. inversion Hd as [|? ? Hrest Hall]; subst.
destruct (highest_score (best :: rest)) as [s|] eqn:Hs;
  [|simpl in Hs; destruct (highest_score rest); discriminate].
exists s. split; [reflexivity|]. apply Qle_antisym.
- apply (highest_score_upper _ _ _ Hs). intros m [<- | Hin].
  + apply Qle_refl.
  + rewrite List.Forall_forall in Hall. by apply Hall.
- simpl in Hs. destruct (highest_score rest); inversion Hs; subst.
  + apply Qminmax.Q.le_max_l.
  + apply Qle_refl.
Qed.

(** [resolve] gives up exactly in the two cases of the specification. *)
Lemma resolve_not_found ms d :
descending ms ->
resolve ms d = NotFound <->
ms = [] \/
(no_exact_match ms d /\
 exists s, highest_score ms = Some s /\ (s < 1 # 2)%Q).
Proof.
intros Hd. unfold resolve. destruct ms as [|best rest].
{ split; [by left | reflexivity]. }
destruct (highest_score_head best rest Hd) as (s & Hs & Heq).
rewrite <- find_exact_none.
destruct (List.find _ (best :: rest)) as [exact|].
{ split; [discriminate | intros [? | [? _]]; discriminate]. }
destruct (Qle_bool (1 # 2) (m_score best)) eqn:Hle.
- split; [discriminate|]. intros [? | [_ (s' & Hs' & Hlt)]]; [discriminate|].
  apply Qle_bool_iff in Hle. rewrite Hs in Hs'. inversion Hs'; subst s'.
  rewrite Heq in Hlt. by apply Qlt_not_le in Hlt.
- split; [|reflexivity]. intros _. right. split; [reflexivity|].
  exists s. split; [exact Hs|]. rewrite Heq. apply Qnot_le_lt.
  intros Hge. apply Qle_bool_iff in Hge. congruence.
Qed.

End Resolution.

Lemma answered_is_not_not_found q a res : answered q a res <> not_found q res.
Proof. unfold answered, not_found, json. intros H. inversion H. Qed.

(** C2: when the request is valid and every provider call made
    succeeds, the not-found outcome (a 404 carrying the original
    question, sent as a normal response and without asking the language
    model) is returned exactly when the search returns no match, or when
    no match has the requested id and the highest score is below 0.5; in
    every other case the language model is called once, with the strict
    prompt on the text of the match that has the requested id or else
    with the lenient prompt on the text of the first match, and the
    response is the question with the text that call returned. *)
Theorem not_found_exactly_when env P req res w b q w1 idx v ms :
  search_returns env P req w b q w1 idx v ms ->
  descending ms ->
  (~ no_usable_match ms (documentID b) ->
   model_answers env P q (calls (searched q idx v w1))) ->
  exists r w',
    handleAsk env P req res w = (Normal r, w') /\
    (r = not_found q res <->
     ms = [] \/
     (no_exact_match ms (documentID b) /\
      exists s, highest_score ms = Some s /\ (s < 1 # 2)%Q)) /\
    (r = not_found q res ->
     statusCode r = 404 /\
     (sent r ≫= field "question") = Some (VStr q) /\
     w' = searched q idx v w1) /\
    (r <> not_found q res ->
     exists system a,
       ((exists exact,
           List.find (fun m => strict_eq_string (m_id m) (documentID b)) ms
             = Some exact /\
           system = strict_prompt (m_text exact)) \/
        (exists best rest,
           ms = best :: rest /\
           no_exact_match ms (documentID b) /\
           system = lenient_prompt (m_text best))) /\
       chat_create P (chat_model env) system q (7 # 10) 500
         (calls (searched q idx v w1)) = Normal a /\
       w' = record (ChatCreate (chat_model env) system q (7 # 10) 500)
              (searched q idx v w1) /\
       r = answered q a res).
Proof.
  intros (Hb & Hq & Hne & Hd & Hcd & [oa Hinit] & Hemb & Hquery) Hsorted Hmodel.
  rewrite (handleAsk_valid env P req res b q w oa idx w1 v ms
             Hb Hq Hne Hd Hcd Hinit Hemb Hquery).
  pose proof (resolve_not_found ms (documentID b) Hsorted) as Hres.
  fold (no_usable_match ms (documentID b)) in Hres.
  destruct (resolve ms (documentID b)) as [context variant|] eqn:Hresolve.
  - assert (Hnot : ~ no_usable_match ms (documentID b)).
    { intros Hc. apply Hres in Hc. discriminate Hc. }
    pose proof (Hmodel Hnot (prompt variant context)) as Ha.
    cbv zeta. fold (searched q idx v w1).
    destruct (chat_create P _ _ _ _ _ _) as [a|e] eqn:Hchat; [|discriminate Ha].
    eexists _, _. split; [reflexivity|].
    pose proof (answered_is_not_not_found q a res) as Hdiff.
    split; [split | split].
    + intros Heq. by destruct Hdiff.
    + intros Hcond. by destruct Hnot.
    + intros Heq. by destruct Hdiff.
    + intros _. exists (prompt variant context), a.
      split; [| by repeat split].
      unfold resolve in Hresolve. destruct ms as [|best rest]; [discriminate|].
      destruct (List.find _ (best :: rest)) as [exact|] eqn:Hfind.
      * inversion Hresolve; subst. left. by exists exact.
      * destruct (Qle_bool _ _); inversion Hresolve; subst.
        right. exists best, rest.
        split; [reflexivity|]. split; [by apply find_exact_none | reflexivity].
  - eexists _, _. split; [reflexivity|].
    split; [split | split].
    + intros _. by apply Hres.
    + reflexivity.
    + intros _. repeat split.
    + intros Hneq. by destruct Hneq.
Qed.

(** C3: when some returned match has the requested id, the language
    model is called with the strict prompt, whose context is the stored
    text of that match and which asks for the fixed refusal sentence, and
    the response is a 200 with the question and the model's output. *)
Theorem exact_match_strict_prompt env P req res w b q w1 idx v ms :
  search_returns env P req w b q w1 idx v ms ->
  model_answers env P q (calls (searched q idx v w1)) ->
  statusCode res = 200 ->
  (exists m, In m ms /\ VStr (m_id m) = documentID b) ->
  exists exact a r w',
    List.find (fun m => strict_eq_string (m_id m) (documentID b)) ms = Some exact /\
    In exact ms /\ VStr (m_id exact) = documentID b /\
    handleAsk env P req res w = (Normal r, w') /\
    w' = record (ChatCreate (chat_model env) (strict_instructions +:+ m_text exact)
                   q (7 # 10) 500) (searched q idx v w1) /\
    chat_create P (chat_model env) (strict_instructions +:+ m_text exact) q
      (7 # 10) 500 (calls (searched q idx v w1)) = Normal a /\
    statusCode r = 200 /\
    sent r = Some [("question", VStr q); ("answer", VStr a)] /\
    includes "You must answer using only the provided" strict_instructions = true /\
    includes refusal_sentence strict_instructions = true.
Proof.
  intros (Hb & Hq & Hne & Hd & Hcd & [oa Hinit] & Hemb & Hquery) Hmodel Hstatus
         (m & Hin & Hid).
  rewrite (handleAsk_valid env P req res b q w oa idx w1 v ms
             Hb Hq Hne Hd Hcd Hinit Hemb Hquery).
  destruct (List.find (fun m => strict_eq_string (m_id m) (documentID b)) ms)
    as [exact|] eqn:Hfind.
  2: { apply find_exact_none in Hfind. by destruct (Hfind m Hin). }
  unfold resolve. destruct ms as [|best rest]; [destruct Hin|].
  rewrite Hfind. simpl.
  pose proof (Hmodel (strict_prompt (m_text exact))) as Ha.
  unfold searched, strict_prompt in *.
  destruct (chat_create P _ _ _ _ _ _) as [a|e] eqn:Hchat; [|discriminate Ha].
  apply find_some in Hfind as [Hin' Heq]. apply strict_eq_string_true in Heq.
  exists exact, a. eexists _, _.
  repeat split; try reflexivity; try assumption.
Qed.

(** C4: when no returned match has the requested id and the first match
    scores at least 0.5, the language model is called with the lenient
    prompt, whose context is the text of that first match and which has
    no refusal sentence, and the response is a 200 with the question and
    the model's output. *)
Theorem best_match_lenient_prompt env P req res w b q w1 idx v best rest :
  search_returns env P req w b q w1 idx v (best :: rest) ->
  model_answers env P q (calls (searched q idx v w1)) ->
  statusCode res = 200 ->
  no_exact_match (best :: rest) (documentID b) ->
  (1 # 2 <= m_score best)%Q ->
  exists a r w',
    handleAsk env P req res w = (Normal r, w') /\
    w' = record (ChatCreate (chat_model env) (lenient_instructions +:+ m_text best)
                   q (7 # 10) 500) (searched q idx v w1) /\
    chat_create P (chat_model env) (lenient_instructions +:+ m_text best) q
      (7 # 10) 500 (calls (searched q idx v w1)) = Normal a /\
    statusCode r = 200 /\
    sent r = Some [("question", VStr q); ("answer", VStr a)] /\
    includes refusal_sentence lenient_instructions = false.
Proof.
  intros (Hb & Hq & Hne & Hd & Hcd & [oa Hinit] & Hemb & Hquery) Hmodel Hstatus
         Hno Hscore.
  rewrite (handleAsk_valid env P req res b q w oa idx w1 v (best :: rest)
             Hb Hq Hne Hd Hcd Hinit Hemb Hquery).
  apply find_exact_none in Hno. apply Qle_bool_iff in Hscore.
  unfold resolve. rewrite Hno, Hscore. simpl.
  pose proof (Hmodel (lenient_prompt (m_text best))) as Ha.
  unfold searched, lenient_prompt in *.
  destruct (chat_create P _ _ _ _ _ _) as [a|e] eqn:Hchat; [|discriminate Ha].
  exists a. eexists _, _.
  repeat split; try reflexivity; try assumption.
Qed.

(** *** The scenarios of the specification, run on the test doubles *)

Lemma stub_search_returns ms d :
  d <> "" ->
  search_returns ∅ (stub_providers ms 0) (ask d) a_world
    (ask_body (VStr sky_question) (VStr d)) sky_question
    a_world the_index [1%Q; 0%Q] ms.
Proof.
  intros Hd. unfold search_returns. simpl.
  apply String.eqb_neq in Hd. rewrite Hd.
  repeat split; try reflexivity; [discriminate | by eexists].
Qed.

Lemma not_found_exactly_when_witness :
  (exists r w',
     handleAsk ∅ (stub_providers weak_matches 0) (ask "nonexistent-id")
       new_response a_world = (Normal r, w') /\
     (r = not_found sky_question new_response <->
      weak_matches = [] \/
      (no_exact_match weak_matches
         (documentID (ask_body (VStr sky_question) (VStr "nonexistent-id"))) /\
       exists s, highest_score weak_matches = Some s /\ (s < 1 # 2)%Q)) /\
     (r = not_found sky_question new_response ->
      statusCode r = 404 /\
      (sent r ≫= field "question") = Some (VStr sky_question) /\
      w' = searched sky_question the_index [1%Q; 0%Q] a_world) /\
     (r <> not_found sky_question new_response ->
      exists system a,
        ((exists exact,
            List.find (fun m => strict_eq_string (m_id m)
                         (documentID (ask_body (VStr sky_question)
                                        (VStr "nonexistent-id"))))
              weak_matches = Some exact /\
            system = strict_prompt (m_text exact)) \/
         (exists best rest,
            weak_matches = best :: rest /\
            no_exact_match weak_matches
              (documentID (ask_body (VStr sky_question) (VStr "nonexistent-id"))) /\
            system = lenient_prompt (m_text best))) /\
        chat_create (stub_providers weak_matches 0) (chat_model ∅) system
          sky_question (7 # 10) 500
          (calls (searched sky_question the_index [1%Q; 0%Q] a_world)) = Normal a /\
        w' = record (ChatCreate (chat_model ∅) system sky_question (7 # 10) 500)
               (searched sky_question the_index [1%Q; 0%Q] a_world) /\
        r = answered sky_question a new_response)) /\
  (exists r w',
     handleAsk ∅ (stub_providers good_matches 0) (ask "nonexistent-id")
       new_response a_world = (Normal r, w') /\
     (r = not_found sky_question new_response <->
      good_matches = [] \/
      (no_exact_match good_matches
         (documentID (ask_body (VStr sky_question) (VStr "nonexistent-id"))) /\
       exists s, highest_score good_matches = Some s /\ (s < 1 # 2)%Q)) /\
     (r = not_found sky_question new_response ->
      statusCode r = 404 /\
      (sent r ≫= field "question") = Some (VStr sky_question) /\
      w' = searched sky_question the_index [1%Q; 0%Q] a_world) /\
     (r <> not_found sky_question new_response ->
      exists system a,
        ((exists exact,
            List.find (fun m => strict_eq_string (m_id m)
                         (documentID (ask_body (VStr sky_question)
                                        (VStr "nonexistent-id"))))
              good_matches = Some exact /\
            system = strict_prompt (m_text exact)) \/
         (exists best rest,
            good_matches = best :: rest /\
            no_exact_match good_matches
              (documentID (ask_body (VStr sky_question) (VStr "nonexistent-id"))) /\
            system = lenient_prompt (m_text best))) /\
        chat_create (stub_providers good_matches 0) (chat_model ∅) system
          sky_question (7 # 10) 500
          (calls (searched sky_question the_index [1%Q; 0%Q] a_world)) = Normal a /\
        w' = record (ChatCreate (chat_model ∅) system sky_question (7 # 10) 500)
               (searched sky_question the_index [1%Q; 0%Q] a_world) /\
        r = answered sky_question a new_response)).
Proof.
  split.
  - apply (not_found_exactly_when ∅ (stub_providers weak_matches 0)
             (ask "nonexistent-id") new_response a_world
             (ask_body (VStr sky_question) (VStr "nonexistent-id")) sky_question
             a_world the_index [1%Q; 0%Q] weak_matches).
    + apply stub_search_returns. discriminate.
    + repeat constructor; by vm_compute.
    + intros _ system. reflexivity.
  - apply (not_found_exactly_when ∅ (stub_providers good_matches 0)
             (ask "nonexistent-id") new_response a_world
             (ask_body (VStr sky_question) (VStr "nonexistent-id")) sky_question
             a_world the_index [1%Q; 0%Q] good_matches).
    + apply stub_search_returns. discriminate.
    + repeat constructor; by vm_compute.
    + intros _ system. reflexivity.
Defined.

Lemma exact_match_strict_prompt_witness :
  exists exact a r w',
    List.find (fun m => strict_eq_string (m_id m)
                 (documentID (ask_body (VStr sky_question) (VStr "doc1"))))
      good_matches = Some exact /\
    In exact good_matches /\
    VStr (m_id exact) = documentID (ask_body (VStr sky_question) (VStr "doc1")) /\
    handleAsk ∅ (stub_providers good_matches 0) (ask "doc1") new_response a_world
      = (Normal r, w') /\
    w' = record (ChatCreate (chat_model ∅) (strict_instructions +:+ m_text exact)
                   sky_question (7 # 10) 500)
           (searched sky_question the_index [1%Q; 0%Q] a_world) /\
    chat_create (stub_providers good_matches 0) (chat_model ∅)
      (strict_instructions +:+ m_text exact) sky_question (7 # 10) 500
      (calls (searched sky_question the_index [1%Q; 0%Q] a_world)) = Normal a /\
    statusCode r = 200 /\
    sent r = Some [("question", VStr sky_question); ("answer", VStr a)] /\
    includes "You must answer using only the provided" strict_instructions = true /\
    includes refusal_sentence strict_instructions = true.
Proof.
  apply (exact_match_strict_prompt ∅ (stub_providers good_matches 0)
           (ask "doc1") new_response a_world
           (ask_body (VStr sky_question) (VStr "doc1")) sky_question
           a_world the_index [1%Q; 0%Q] good_matches).
  - apply stub_search_returns. discriminate.
  - intros system. reflexivity.
  - reflexivity.
  - exists (mkMatch "doc1" (6 # 10) "The sky is blue."). split; [|reflexivity].
    right. left. reflexivity.
Defined.

Lemma best_match_lenient_prompt_witness :
  exists a r w',
    handleAsk ∅ (stub_providers good_matches 0) (ask "nonexistent-id")
      new_response a_world = (Normal r, w') /\
    w' = record (ChatCreate (chat_model ∅) (lenient_instructions +:+ "Grass is green.")
                   sky_question (7 # 10) 500)
           (searched sky_question the_index [1%Q; 0%Q] a_world) /\
    chat_create (stub_providers good_matches 0) (chat_model ∅)
      (lenient_instructions +:+ "Grass is green.") sky_question (7 # 10) 500
      (calls (searched sky_question the_index [1%Q; 0%Q] a_world)) = Normal a /\
    statusCode r = 200 /\
    sent r = Some [("question", VStr sky_question); ("answer", VStr a)] /\
    includes refusal_sentence lenient_instructions = false.
Proof.
  apply (best_match_lenient_prompt ∅ (stub_providers good_matches 0)
           (ask "nonexistent-id") new_response a_world
           (ask_body (VStr sky_question) (VStr "nonexistent-id")) sky_question
           a_world the_index [1%Q; 0%Q]
           (mkMatch "doc2" (8 # 10) "Grass is green.")
           [mkMatch "doc1" (6 # 10) "The sky is blue."]).
  - apply stub_search_returns. discriminate.
  - intros system. reflexivity.
  - reflexivity.
  - intros m [<- | [<- | []]]; discriminate.
  - by vm_compute.
Defined.

(** The concrete scenario of the specification, end to end through the
    router: ingest the sentence under [doc1], then ask about it. *)
Example sky_scenario :
  exists r1 w1 r2 w2,
    handler ∅ (stub_providers good_matches 0) simple_pathname
      (post "/api/embeddings" (ingest_body (VStr "The sky is blue.") (VStr "doc1")))
      new_response fresh_world = (Normal r1, w1) /\
    statusCode r1 = 201 /\ (sent r1 ≫= field "id") = Some (VStr "doc1") /\
    handler ∅ (stub_providers good_matches 0) simple_pathname (ask "doc1")
      new_response w1 = (Normal r2, w2) /\
    statusCode r2 = 200 /\
    (sent r2 ≫= field "answer") = Some (VStr (strict_prompt "The sky is blue.")).
Proof. by eexists _, _, _, _; vm_compute. Qed.


(** * Further properties of the code *)

(** ** Router: methods and unknown paths (lines 265-284) *)

(** X1: [/embeddings] and [/ask] accept POST only: any other method
    that is not OPTIONS is answered 405 [Method not allowed], the body is
    not read and no client is initialised. *)
Theorem post_only_routes env P U req res w pathname :
  method req <> "OPTIONS" ->
  method req <> "POST" ->
  U (url req) (url_base req) = Some pathname ->
  normalize_path pathname = "/embeddings" \/ normalize_path pathname = "/ask" ->
  handler env P U req res w =
    (Normal (method_not_allowed (setCorsHeaders env req res)), w).
Proof.
  intros Ho Hp HU Hpath. unfold handler, url_base in *.
  apply String.eqb_neq in Ho, Hp. rewrite Ho, HU, Hp. unfold_monad. simpl.
  destruct Hpath as [-> | ->]; reflexivity.
Qed.

Lemma post_only_routes_witness :
  handler ∅ flaky_providers simple_pathname
    (mkRequest "GET" "/api/ask?q=sky" (Some "example.test") None None)
    new_response fresh_world =
  (Normal (method_not_allowed
     (setCorsHeaders ∅
        (mkRequest "GET" "/api/ask?q=sky" (Some "example.test") None None)
        new_response)), fresh_world).
Proof.
  apply (post_only_routes ∅ flaky_providers simple_pathname
           (mkRequest "GET" "/api/ask?q=sky" (Some "example.test") None None)
           new_response fresh_world "/api/ask");
    [discriminate | discriminate | reflexivity | right; reflexivity].
Defined.

(** X2: a path other than the four routes is answered 404 [Not found]
    whatever the method (OPTIONS apart), without touching the world. *)
Theorem unknown_path_not_found env P U req res w pathname :
  method req <> "OPTIONS" ->
  U (url req) (url_base req) = Some pathname ->
  normalize_path pathname <> "/" ->
  normalize_path pathname <> "/health" ->
  normalize_path pathname <> "/embeddings" ->
  normalize_path pathname <> "/ask" ->
  handler env P U req res w =
    (Normal (route_not_found (setCorsHeaders env req res)), w).
Proof.
  intros Ho HU H1 H2 H3 H4. unfold handler, url_base in *.
  apply String.eqb_neq in Ho, H1, H2, H3, H4.
  rewrite Ho, HU. unfold_monad. simpl. rewrite H1, H2, H3, H4. reflexivity.
Qed.

Lemma unknown_path_not_found_witness :
  handler ∅ flaky_providers simple_pathname
    (post "/api/api/ask" (ask_body (VStr sky_question) (VStr "doc1")))
    new_response fresh_world =
  (Normal (route_not_found
     (setCorsHeaders ∅
        (post "/api/api/ask" (ask_body (VStr sky_question) (VStr "doc1")))
        new_response)), fresh_world).
Proof.
  apply (unknown_path_not_found ∅ flaky_providers simple_pathname
           (post "/api/api/ask" (ask_body (VStr sky_question) (VStr "doc1")))
           new_response fresh_world "/api/api/ask");
    first [ discriminate | reflexivity ].
Defined.

(** ** Client initialisation (lines 9-51) *)

(** X3: the clients are cached.  After a run of [initClients] that
    succeeded, another run returns the same two handles, calls no
    provider and changes nothing. *)
Theorem initClients_cached env P w c w' :
  initClients env P w = (Normal c, w') ->
  initClients env P w' = (Normal c, w').
Proof.
  unfold initClients. destruct w as [oa idx ini cs]. unfold_monad; simpl.
  intros H. repeat step_in H; inversion H; subst;
    try (destruct ini; [|discriminate]); reflexivity.
Qed.

Lemma initClients_cached_witness :
  initClients ∅ (stub_providers [] 0)
    (mkWorld (Some (mkOpenAI None)) (Some the_index) true [ListIndexes]) =
  (Normal (Some (mkOpenAI None), Some the_index),
   mkWorld (Some (mkOpenAI None)) (Some the_index) true [ListIndexes]).
Proof.
  apply (initClients_cached ∅ (stub_providers [] 0) fresh_world). reflexivity.
Defined.

(** X4: the first initialisation lists the indexes once; when the
    configured index is not among them (or the list comes back undefined)
    it creates it with dimension 1536 and the cosine metric in the
    configured cloud and region, and when it is there it creates nothing.
    Either way the handle is for that index and the flag is set. *)
Theorem first_initialisation env P w names :
  pineconeInitialized w = false ->
  constructors_ok env P w ->
  listIndexes P (calls w) = Normal names ->
  (existsb (String.eqb (index_name_of env)) (default [] names) = false ->
   createIndex P (index_name_of env) 1536 "cosine"
     (str_or (env !! "PINECONE_CLOUD") "aws")
     (str_or (env !! "PINECONE_REGION") "us-east-1")
     (ListIndexes :: calls w) = Normal tt) ->
  exists o w',
    initClients env P w =
      (Normal (Some o, Some (mkIndex (index_name_of env))), w') /\
    pineconeInitialized w' = true /\
    calls w' =
      (if existsb (String.eqb (index_name_of env)) (default [] names)
       then []
       else [CreateIndex (index_name_of env) 1536 "cosine"
               (str_or (env !! "PINECONE_CLOUD") "aws")
               (str_or (env !! "PINECONE_REGION") "us-east-1")])
      ++ ListIndexes :: calls w.
Proof.
  intros Hi [Ho Hp] Hl Hc. unfold initClients, index_name_of in *.
  destruct w as [oa idx ini cs]. simpl in *. subst ini. unfold_monad. simpl.
  construct_clients oa Ho Hp; rewrite Hl; simpl;
    (destruct (existsb _ (default [] names)); simpl;
     [| rewrite (Hc eq_refl); simpl]); by eexists _, _.
Qed.

Lemma first_initialisation_witness :
  exists o w',
    initClients notes_env (stub_providers [] 0) fresh_world =
      (Normal (Some o, Some (mkIndex (index_name_of notes_env))), w') /\
    pineconeInitialized w' = true /\
    calls w' =
      (if existsb (String.eqb (index_name_of notes_env))
            (default [] (Some ["text-embeddings"]))
       then []
       else [CreateIndex (index_name_of notes_env) 1536 "cosine"
               (str_or (notes_env !! "PINECONE_CLOUD") "aws")
               (str_or (notes_env !! "PINECONE_REGION") "us-east-1")])
      ++ ListIndexes :: calls fresh_world.
Proof.
  apply (first_initialisation notes_env (stub_providers [] 0) fresh_world
           (Some ["text-embeddings"]));
    [reflexivity | split; reflexivity | reflexivity | reflexivity].
Defined.

(** The same run, evaluated: the store has [text-embeddings] only, the
    configuration asks for [notes]. *)
Example first_initialisation_run :
  calls (snd (initClients notes_env (stub_providers [] 0) fresh_world)) =
    [CreateIndex "notes" 1536 "cosine" "aws" "us-east-1"; ListIndexes].
Proof. reflexivity. Qed.

(** ** CORS: the allowed origin (lines 54-78) *)

Lemma prefix_append (n rest : string) : String.prefix n (n +:+ rest) = true.
Proof.
  induction n as [|c n IH]; simpl; [by destruct rest|].
  destruct (ascii_dec c c); [exact IH | congruence].
Qed.

Lemma includes_append (n pre rest : string) :
  includes n (pre +:+ n +:+ rest) = true.
Proof.
  induction pre as [|c pre IH].
  - change (includes n (n +:+ rest) = true).
    assert (Hhead : forall h, String.prefix n h = true -> includes n h = true)
      by (intros h Hp; destruct h; cbn [includes]; rewrite Hp; reflexivity).
    apply Hhead, prefix_append.
  - change (includes n (String c (pre +:+ n +:+ rest)) = true).
    cbn [includes]. rewrite IH. apply orb_true_r.
Qed.

(** X5: with FRONTEND_URL configured, an origin that mentions neither
    [localhost] nor [127.0.0.1] is not echoed: the allowed origin is the
    configured one, also when the request has no Origin header. *)
Theorem cors_configured_origin env req res allowed :
  env !! "FRONTEND_URL" = Some allowed ->
  allowed <> "" -> allowed <> "*" ->
  (forall o, origin req = Some o ->
     includes "localhost" o = false /\ includes "127.0.0.1" o = false) ->
  headers (setCorsHeaders env req res) !! "Access-Control-Allow-Origin"
    = Some allowed.
Proof.
  intros Henv Hne Hstar Hforeign. unfold setCorsHeaders, origin_allowed.
  rewrite Henv. simpl. apply String.eqb_neq in Hne, Hstar. rewrite Hne, Hstar.
  destruct (origin req) as [o|]; simpl.
  - destruct (Hforeign o eq_refl) as [-> ->]. rewrite andb_false_r. simpl.
    unfold setHeader. simpl. by simplify_map_eq.
  - unfold setHeader. simpl. by simplify_map_eq.
Qed.

Lemma cors_configured_origin_witness :
  headers (setCorsHeaders configured_env
             (mkRequest "GET" "/api/health" None (Some "https://evil.example.com") None)
             new_response) !! "Access-Control-Allow-Origin"
    = Some "https://app.example.com".
Proof.
  apply (cors_configured_origin configured_env
           (mkRequest "GET" "/api/health" None (Some "https://evil.example.com") None)
           new_response "https://app.example.com");
    [reflexivity | discriminate | discriminate |].
  intros o Ho. inversion Ho; subst. split; reflexivity.
Defined.

(** X6: with FRONTEND_URL unset, empty or [*], every origin a request
    names is echoed, with credentials allowed; only a request without an
    Origin header gets [*]. *)
Theorem cors_unconfigured_echoes env req res :
  str_or (env !! "FRONTEND_URL") "*" = "*" ->
  headers (setCorsHeaders env req res) !! "Access-Control-Allow-Origin"
    = Some (str_or (origin req) "*") /\
  headers (setCorsHeaders env req res) !! "Access-Control-Allow-Credentials"
    = Some "true".
Proof.
  intros Henv. unfold setCorsHeaders, origin_allowed. rewrite Henv. simpl.
  split.
  - destruct (origin req) as [o|]; simpl.
    + rewrite orb_true_r, andb_true_r.
      destruct (o =? "")%string; simpl; unfold setHeader; simpl; by simplify_map_eq.
    + unfold setHeader; simpl; by simplify_map_eq.
  - unfold setHeader. simpl. by simplify_map_eq.
Qed.

Lemma cors_unconfigured_echoes_witness :
  headers (setCorsHeaders ∅
             (mkRequest "GET" "/api/health" None (Some "https://evil.example.com") None)
             new_response) !! "Access-Control-Allow-Origin"
    = Some (str_or (Some "https://evil.example.com") "*") /\
  headers (setCorsHeaders ∅
             (mkRequest "GET" "/api/health" None (Some "https://evil.example.com") None)
             new_response) !! "Access-Control-Allow-Credentials"
    = Some "true".
Proof.
  apply (cors_unconfigured_echoes ∅
           (mkRequest "GET" "/api/health" None (Some "https://evil.example.com") None)
           new_response).
  reflexivity.
Defined.

(** X7: the local-origin test looks anywhere in the header: an origin
    with [localhost] or [127.0.0.1] at the front, in the middle or at the
    end is echoed, whatever surrounds it and whatever FRONTEND_URL is. *)
Theorem cors_local_anywhere env req res pre post :
  origin req = Some (pre +:+ "localhost" +:+ post) \/
  origin req = Some (pre +:+ "127.0.0.1" +:+ post) ->
  headers (setCorsHeaders env req res) !! "Access-Control-Allow-Origin"
    = origin req.
Proof.
  intros [Ho | Ho]; rewrite Ho;
    apply setCorsHeaders_local_origin; try exact Ho;
    [left | right]; apply includes_append.
Qed.

Lemma cors_local_anywhere_witness :
  headers (setCorsHeaders configured_env
             (mkRequest "GET" "/" None (Some "https://attacker.test/?x=127.0.0.1") None)
             new_response) !! "Access-Control-Allow-Origin"
    = origin (mkRequest "GET" "/" None (Some "https://attacker.test/?x=127.0.0.1") None).
Proof.
  apply (cors_local_anywhere configured_env
           (mkRequest "GET" "/" None (Some "https://attacker.test/?x=127.0.0.1") None)
           new_response "https://attacker.test/?x=" "").
  right. reflexivity.
Defined.

(** ** Ingestion: calls and failures (lines 86-128) *)

Section IngestionRuns.

Context (env : gmap string string) (P : Providers).

Local Arguments log_chunk : simpl never.
Local Arguments interpolate : simpl never.

(** A valid ingestion, call by call. *)
Lemma handleEmbeddings_valid req res w b w1 idx :
  ingest_ready env P req w b w1 idx ->
  handleEmbeddings env P req res w =
    match embeddings_create P embedding_model (text b) (calls w1) with
    | Throw e => (Normal (server_error (message e) res), embedded b w1)
    | Normal v =>
        let id := chosen_id P (chunkId b) (calls (embedded b w1)) in
        let w3 := record (upsert_of P b idx v w1) (embedded b w1) in
        match upsert P (index_name idx) id v (text b) (calls (embedded b w1)) with
        | Throw e => (Normal (server_error (message e) res), w3)
        | Normal _ =>
            match fst (preview P (text b) w3) with
            | Normal shown => (Normal (answered_created id shown res), w3)
            | Throw e => (Normal (server_error (message e) res), w3)
            end
        end
    end.
Proof.
  intros (Hb & Ht & Hlog & [oa Hinit]).
  assert (Hline97 : log_chunk (text b) (chunkId b) w1 = (Normal tt, w1)).
  { destruct (log_chunk (text b) (chunkId b) w1) as [c w0] eqn:E.
    pose proof (log_chunk_world _ _ _ _ _ E); subst w0.
    pose proof (proj2 (log_chunk_ok b w1 Ht) Hlog) as Hok.
    rewrite E in Hok. simpl in Hok. by rewrite Hok. }
  assert (Hconv : truthy (chunkId b) = true -> converts (chunkId b) = true).
  { intros Hk. unfold chunk_logs in Hlog. apply andb_prop in Hlog as [_ Hc].
    by rewrite Hk in Hc. }
  unfold handleEmbeddings, destructure, Date_now_, upsert_of, embedded,
    chosen_id, record, server_error, answered_created, embedding_model in *.
  unfold try_catch at 1. unfold bind at 1. rewrite Hinit, Hb.
  unfold_monad. simpl. rewrite Ht. simpl. rewrite Hline97. simpl.
  destruct (embeddings_create P _ _ _) as [v|e]; [|reflexivity]. simpl.
  destruct (truthy (chunkId b)) eqn:Hk; simpl;
    (destruct (upsert P _ _ _ _ _) as [u|e]; [|reflexivity]); simpl;
    unfold interpolate; rewrite ?(Hconv eq_refl); unfold_monad; simpl;
    match goal with
    | |- context [preview P ?t ?w0] =>
        destruct (preview P t w0) as [[shown|e] w4] eqn:Hp;
        apply preview_world in Hp; subst w4; simpl; reflexivity
    end.
Qed.

End IngestionRuns.

(** X8: a successful ingestion of a text that is a string calls the
    embedding once and then upserts one record: its id is the id
    returned to the caller, its values are the embedding just obtained
    for that text, and its metadata holds the whole text, not the
    preview. *)
Theorem ingestion_stores_what_it_embeds env P req res w b w1 idx s v :
  ingest_ready env P req w b w1 idx ->
  text b = VStr s ->
  embeddings_create P embedding_model (text b) (calls w1) = Normal v ->
  is_normal (upsert P (index_name idx)
               (chosen_id P (chunkId b) (calls (embedded b w1))) v (text b)
               (calls (embedded b w1))) = true ->
  handleEmbeddings env P req res w =
    (Normal (answered_created (chosen_id P (chunkId b) (calls (embedded b w1)))
               (VStr (text_preview s)) res),
     record (Upsert (index_name idx)
               (chosen_id P (chunkId b) (calls (embedded b w1))) v (VStr s))
       (record (EmbeddingsCreate embedding_model (VStr s)) w1)).
Proof.
  intros Hready Ht Hemb Hup.
  rewrite (handleEmbeddings_valid env P req res w b w1 idx Hready).
  rewrite Hemb. simpl.
  destruct (upsert P _ _ _ _ _) as [u|e]; [|discriminate Hup].
  unfold upsert_of, embedded, text_preview. rewrite Ht. simpl.
  destruct (100 <? String.length s)%nat; reflexivity.
Qed.

Lemma ingestion_stores_what_it_embeds_witness :
  handleEmbeddings ∅ clock_providers
    (post "/api/embeddings" (ingest_body (VStr long_text) VUndefined))
    new_response a_world =
  (Normal (answered_created
             (chosen_id clock_providers
                (chunkId (ingest_body (VStr long_text) VUndefined))
                (calls (embedded (ingest_body (VStr long_text) VUndefined) a_world)))
             (VStr (text_preview long_text)) new_response),
   record (Upsert (index_name the_index)
             (chosen_id clock_providers
                (chunkId (ingest_body (VStr long_text) VUndefined))
                (calls (embedded (ingest_body (VStr long_text) VUndefined) a_world)))
             [1%Q; 0%Q] (VStr long_text))
     (record (EmbeddingsCreate embedding_model (VStr long_text)) a_world)).
Proof.
  apply (ingestion_stores_what_it_embeds ∅ clock_providers
           (post "/api/embeddings" (ingest_body (VStr long_text) VUndefined))
           new_response a_world (ingest_body (VStr long_text) VUndefined)
           a_world the_index long_text [1%Q; 0%Q]);
    try reflexivity.
  repeat split. by eexists.
Defined.

(** X9: when the embedding call fails, the ingestion answers 500 with
    the provider's message and nothing is upserted. *)
Theorem ingestion_embedding_failure env P req res w b w1 idx e :
  ingest_ready env P req w b w1 idx ->
  embeddings_create P embedding_model (text b) (calls w1) = Throw e ->
  handleEmbeddings env P req res w =
    (Normal (server_error (message e) res),
     record (EmbeddingsCreate embedding_model (text b)) w1).
Proof.
  intros Hready Hemb.
  rewrite (handleEmbeddings_valid env P req res w b w1 idx Hready).
  rewrite Hemb. reflexivity.
Qed.

(** X10: when the upsert fails, the ingestion answers 500 with the
    store's message, never a 201. *)
Theorem ingestion_upsert_failure env P req res w b w1 idx v e :
  ingest_ready env P req w b w1 idx ->
  embeddings_create P embedding_model (text b) (calls w1) = Normal v ->
  upsert P (index_name idx)
    (chosen_id P (chunkId b) (calls (embedded b w1))) v (text b)
    (calls (embedded b w1)) = Throw e ->
  handleEmbeddings env P req res w =
    (Normal (server_error (message e) res),
     record (upsert_of P b idx v w1) (embedded b w1)).
Proof.
  intros Hready Hemb Hup.
  rewrite (handleEmbeddings_valid env P req res w b w1 idx Hready).
  rewrite Hemb. cbv zeta. rewrite Hup. reflexivity.
Qed.

Lemma ingestion_embedding_failure_witness :
  handleEmbeddings ∅ embeddings_down sky_ingest new_response a_world =
    (Normal (server_error (message quota_error) new_response),
     record (EmbeddingsCreate embedding_model
               (text (ingest_body (VStr "The sky is blue.") (VStr "doc1"))))
       a_world).
Proof.
  apply (ingestion_embedding_failure ∅ embeddings_down sky_ingest new_response
           a_world (ingest_body (VStr "The sky is blue.") (VStr "doc1"))
           a_world the_index quota_error);
    [repeat split; by eexists | reflexivity].
Defined.

Lemma ingestion_upsert_failure_witness :
  handleEmbeddings ∅ store_down sky_ingest new_response a_world =
    (Normal (server_error (message store_error) new_response),
     record (upsert_of store_down
               (ingest_body (VStr "The sky is blue.") (VStr "doc1"))
               the_index [1%Q; 0%Q] a_world)
       (embedded (ingest_body (VStr "The sky is blue.") (VStr "doc1")) a_world)).
Proof.
  apply (ingestion_upsert_failure ∅ store_down sky_ingest new_response
           a_world (ingest_body (VStr "The sky is blue.") (VStr "doc1"))
           a_world the_index [1%Q; 0%Q] store_error);
    [repeat split; by eexists | reflexivity | reflexivity].
Defined.

(** X11: a POST without a body is not a validation error.  Both handlers
    destructure [req.body] after the clients were initialised, so an
    undefined body throws there and the response is a 500; no embedding
    is requested. *)
Theorem missing_body_is_server_error env P req res w :
  body req = None ->
  exists r1 r2,
    handleEmbeddings env P req res w = (Normal r1, snd (initClients env P w)) /\
    statusCode r1 = 500 /\
    handleAsk env P req res w = (Normal r2, snd (initClients env P w)) /\
    statusCode r2 = 500.
Proof.
  intros Hb. unfold handleEmbeddings, handleAsk, destructure.
  rewrite Hb. unfold_monad.
  destruct (initClients env P w) as [[c|e] w1]; simpl; by eexists _, _.
Qed.

Lemma missing_body_is_server_error_witness :
  exists r1 r2,
    handleEmbeddings ∅ (stub_providers [] 0)
      (mkRequest "POST" "/api/embeddings" None None None) new_response a_world
      = (Normal r1, snd (initClients ∅ (stub_providers [] 0) a_world)) /\
    statusCode r1 = 500 /\
    handleAsk ∅ (stub_providers [] 0)
      (mkRequest "POST" "/api/embeddings" None None None) new_response a_world
      = (Normal r2, snd (initClients ∅ (stub_providers [] 0) a_world)) /\
    statusCode r2 = 500.
Proof.
  apply (missing_body_is_server_error ∅ (stub_providers [] 0)
           (mkRequest "POST" "/api/embeddings" None None None)
           new_response a_world).
  reflexivity.
Defined.

Lemma length_append (a b : string) :
  String.length (a +:+ b) = (String.length a + String.length b)%nat.
Proof.
  induction a as [|c a IH]; [reflexivity|].
  change (S (String.length (a +:+ b)) = S (String.length a + String.length b)).
  by rewrite IH.
Qed.

(** The preview field of a 201, and its length. *)
Lemma ingestion_preview_shape env P req res w r w' b s :
  handleEmbeddings env P req res w = (Normal r, w') ->
  statusCode r = 201 ->
  body req = Some b ->
  text b = VStr s ->
  (sent r ≫= field "text") = Some (VStr (text_preview s)) /\
  String.length (text_preview s) =
    (if (100 <? String.length s)%nat then 103 else String.length s)%nat.
Proof.
  intros Hrun Hs Hb Ht.
  destruct (handleEmbeddings_created env P req res w r w' Hrun Hs)
    as (b' & shown & Hb' & _ & Hshown & Hsent).
  rewrite Hb in Hb'. inversion Hb'; subst b'.
  rewrite Hsent, Ht in *. unfold text_preview. simpl in *.
  destruct (100 <? String.length s)%nat eqn:Hlong; simpl in Hshown.
  - split; [congruence|]. apply Nat.ltb_lt in Hlong.
    destruct (substring_to_prefix 100 s ltac:(lia)) as (rest & _ & Hlen).
    rewrite length_append, Hlen. reflexivity.
  - split; [congruence | reflexivity].
Qed.

(** X12: the preview of a string has the length of the text up to 100
    characters and exactly 103 beyond: it never exceeds 103, and for a
    text of 101 or 102 characters it is longer than the text itself. *)
Theorem preview_length env P req res w r w' b s :
  handleEmbeddings env P req res w = (Normal r, w') ->
  statusCode r = 201 ->
  body req = Some b ->
  text b = VStr s ->
  exists p,
    (sent r ≫= field "text") = Some (VStr p) /\
    String.length p =
      (if (100 <? String.length s)%nat then 103 else String.length s)%nat.
Proof.
  intros Hrun Hs Hb Ht.
  destruct (ingestion_preview_shape env P req res w r w' b s Hrun Hs Hb Ht)
    as [Hp Hlen].
  exists (text_preview s). split; [exact Hp | exact Hlen].
Qed.

Lemma preview_length_witness :
  exists p,
    (sent (answered_created (VStr "doc1")
             (VStr (substring_to 100 long_text +:+ "...")) new_response)
       ≫= field "text") = Some (VStr p) /\
    String.length p =
      (if (100 <? String.length long_text)%nat
       then 103 else String.length long_text)%nat.
Proof.
  apply (preview_length ∅ clock_providers
           (post "/api/embeddings" (ingest_body (VStr long_text) (VStr "doc1")))
           new_response a_world
           (answered_created (VStr "doc1")
              (VStr (substring_to 100 long_text +:+ "...")) new_response)
           (record (Upsert "text-embeddings" (VStr "doc1") [1%Q; 0%Q] (VStr long_text))
              (record (EmbeddingsCreate embedding_model (VStr long_text)) a_world))
           (ingest_body (VStr long_text) (VStr "doc1")) long_text);
    reflexivity.
Defined.

(** X13: a text that is an array of more than 100 items passes the
    emptiness check and is embedded and upserted, and only then does the
    preview throw ([substring] is not a method of arrays): the caller
    gets a 500 although the record was stored. *)
Theorem long_array_stored_then_fails env P req res w b w1 idx items v :
  ingest_ready env P req w b w1 idx ->
  text b = VArr items ->
  (100 < List.length items)%nat ->
  embeddings_create P embedding_model (text b) (calls w1) = Normal v ->
  is_normal (upsert P (index_name idx)
               (chosen_id P (chunkId b) (calls (embedded b w1))) v (text b)
               (calls (embedded b w1))) = true ->
  exists r,
    handleEmbeddings env P req res w =
      (Normal r, record (upsert_of P b idx v w1) (embedded b w1)) /\
    statusCode r = 500.
Proof.
  intros Hready Ht Hlen Hemb Hup.
  rewrite (handleEmbeddings_valid env P req res w b w1 idx Hready).
  rewrite Hemb. cbv zeta.
  destruct (upsert P _ _ _ _ _) as [u|e]; [|discriminate Hup].
  rewrite Ht. simpl. apply Nat.ltb_lt in Hlen. rewrite Hlen. simpl.
  by eexists.
Qed.

Lemma long_array_stored_then_fails_witness :
  exists r,
    handleEmbeddings ∅ clock_providers
      (post "/api/embeddings" (ingest_body (array_text 101) (VStr "doc1")))
      new_response a_world =
      (Normal r,
       record (upsert_of clock_providers (ingest_body (array_text 101) (VStr "doc1"))
                 the_index [1%Q; 0%Q] a_world)
         (embedded (ingest_body (array_text 101) (VStr "doc1")) a_world)) /\
    statusCode r = 500.
Proof.
  apply (long_array_stored_then_fails ∅ clock_providers
           (post "/api/embeddings" (ingest_body (array_text 101) (VStr "doc1")))
           new_response a_world (ingest_body (array_text 101) (VStr "doc1"))
           a_world the_index (repeat (VStr "chunk") 101) [1%Q; 0%Q]);
    [repeat split; by eexists | reflexivity | vm_compute; lia
    | reflexivity | reflexivity].
Defined.

(** ** Question answering: failures and messages (lines 131-245) *)

(** X14: for a valid question that went through the log line, a
    failure of the embedding or of the similarity query is a 500
    [Failed to process question] with the provider's message as details,
    never the 404 of an empty search, and the language model is not
    asked. *)
Theorem ask_search_failure env P req res w b q w1 idx e :
  body req = Some b ->
  question b = VStr q -> q <> "" ->
  truthy (documentID b) = true ->
  converts (documentID b) = true ->
  (exists oa, initClients env P w = (Normal (Some oa, Some idx), w1)) ->
  (embeddings_create P embedding_model (VStr q) (calls w1) = Throw e \/
   exists v,
     embeddings_create P embedding_model (VStr q) (calls w1) = Normal v /\
     query P (index_name idx) v 5 true
       (EmbeddingsCreate embedding_model (VStr q) :: calls w1) = Throw e) ->
  exists w',
    handleAsk env P req res w = (Normal (ask_failed (message e) res), w') /\
    ask_failed (message e) res <> not_found q res /\
    (w' = record (EmbeddingsCreate embedding_model (VStr q)) w1 \/
     exists v, w' = searched q idx v w1).
Proof.
  intros Hb Hq Hne Hd Hcd [oa Hinit] Hfail.
  assert (Hq' : (q =? "")%string = false) by (by apply String.eqb_neq).
  assert (Hdiff : ask_failed (message e) res <> not_found q res).
  { unfold ask_failed, not_found, json. intros H. inversion H. }
  unfold handleAsk, destructure, interpolate, searched, record, embedding_model in *.
  unfold try_catch at 1. unfold bind at 1. rewrite Hinit, Hb.
  unfold_monad. simpl. rewrite Hq, Hcd. simpl. rewrite Hq', Hd. simpl.
  destruct Hfail as [Hemb | (v & Hemb & Hquery)]; rewrite Hemb; simpl;
    rewrite ?Hquery; simpl;
    (eexists; split; [reflexivity|]; split; [exact Hdiff|]).
  - by left.
  - right. by exists v.
Qed.

Lemma ask_search_failure_witness :
  exists w',
    handleAsk ∅ store_down (ask "doc1") new_response a_world =
      (Normal (ask_failed (message store_error) new_response), w') /\
    ask_failed (message store_error) new_response
      <> not_found sky_question new_response /\
    (w' = record (EmbeddingsCreate embedding_model (VStr sky_question)) a_world \/
     exists v, w' = searched sky_question the_index v a_world).
Proof.
  apply (ask_search_failure ∅ store_down (ask "doc1") new_response a_world
           (ask_body (VStr sky_question) (VStr "doc1")) sky_question
           a_world the_index store_error);
    [reflexivity | reflexivity | discriminate | reflexivity | reflexivity
    | by eexists |].
  right. exists [1%Q; 0%Q]. split; reflexivity.
Defined.

(** X15: when the search found a context but the language model call
    fails, the response is a 500 with the model's message as details,
    after exactly that one chat call. *)
Theorem ask_model_failure env P req res w b q w1 idx v ms context variant e :
  search_returns env P req w b q w1 idx v ms ->
  resolve ms (documentID b) = Answer context variant ->
  chat_create P (chat_model env) (prompt variant context) q (7 # 10) 500
    (calls (searched q idx v w1)) = Throw e ->
  handleAsk env P req res w =
    (Normal (ask_failed (message e) res),
     record (ChatCreate (chat_model env) (prompt variant context) q (7 # 10) 500)
       (searched q idx v w1)).
Proof.
  intros (Hb & Hq & Hne & Hd & Hcd & [oa Hinit] & Hemb & Hquery) Hres Hchat.
  rewrite (handleAsk_valid env P req res b q w oa idx w1 v ms
             Hb Hq Hne Hd Hcd Hinit Hemb Hquery).
  rewrite Hres. cbv zeta. unfold searched in Hchat. rewrite Hchat. reflexivity.
Qed.

Lemma ask_model_failure_witness :
  handleAsk ∅ chat_down (ask "doc1") new_response a_world =
    (Normal (ask_failed (message quota_error) new_response),
     record (ChatCreate (chat_model ∅) (prompt strict "The sky is blue.")
               sky_question (7 # 10) 500)
       (searched sky_question the_index [1%Q; 0%Q] a_world)).
Proof.
  apply (ask_model_failure ∅ chat_down (ask "doc1") new_response a_world
           (ask_body (VStr sky_question) (VStr "doc1")) sky_question
           a_world the_index [1%Q; 0%Q] good_matches
           "The sky is blue." strict quota_error);
    [| reflexivity | reflexivity].
  repeat split; try reflexivity; [discriminate | by eexists].
Defined.

(** X16: the query handler logs the question and the documentID, then
    makes its two checks in order, each with its own message.  When both
    values convert to strings, a question that is missing, empty or not a
    string is [Valid question string is required] whatever the
    documentID, and a valid question with a missing documentID is
    [Document ID is required]; when one of them does not convert (an
    object with an own [toString] key), the log line throws before any
    check and the response is the 500 of the catch block.  The ingestion
    says [Text content is required]. *)
Theorem validation_messages env P req res b w c w1 :
  body req = Some b ->
  initClients env P w = (Normal c, w1) ->
  (truthy (text b) = false ->
   handleEmbeddings env P req res w =
     (Normal (bad_request "Text content is required" res), w1)) /\
  (ask_logs b = true ->
   truthy (question b) && typeof_string (question b) = false ->
   handleAsk env P req res w =
     (Normal (bad_request "Valid question string is required" res), w1)) /\
  (ask_logs b = true ->
   truthy (question b) && typeof_string (question b) = true ->
   truthy (documentID b) = false ->
   handleAsk env P req res w =
     (Normal (bad_request "Document ID is required" res), w1)) /\
  (ask_logs b = false ->
   handleAsk env P req res w =
     (Normal (ask_failed (message cannot_convert) res), w1)).
Proof.
  intros Hb Hinit. split; [|split; [|split]].
  - intros Ht.
    rewrite (handleEmbeddings_invalid env P req res b w Hb Ht), Hinit. reflexivity.
  - intros Hlog Hq. apply andb_prop in Hlog as [Hcq Hcd].
    unfold handleAsk, destructure, interpolate.
    unfold try_catch at 1. unfold bind at 1. rewrite Hinit, Hb.
    unfold_monad. simpl. rewrite Hcq, Hcd. simpl.
    destruct (question b) as [| | |?|s|?|?]; try reflexivity.
    simpl in *. rewrite andb_true_r in Hq. rewrite Hq. reflexivity.
  - intros Hlog Hq Hd. apply andb_prop in Hlog as [Hcq Hcd].
    unfold handleAsk, destructure, interpolate.
    unfold try_catch at 1. unfold bind at 1. rewrite Hinit, Hb.
    unfold_monad. simpl. rewrite Hcq, Hcd. simpl.
    destruct (question b) as [| | |?|s|?|?]; simpl in Hq;
      rewrite ?andb_false_r in Hq; try discriminate Hq.
    simpl. rewrite andb_true_r in Hq. rewrite Hq, Hd. reflexivity.
  - intros Hlog. unfold ask_logs in Hlog.
    unfold handleAsk, destructure, interpolate, ask_failed.
    unfold try_catch at 1. unfold bind at 1. rewrite Hinit, Hb.
    unfold_monad. simpl.
    destruct (converts (question b)); simpl in *; [|reflexivity].
    rewrite Hlog. reflexivity.
Qed.

Lemma validation_messages_witness :
  handleEmbeddings ∅ (stub_providers [] 0)
    (post "/api/embeddings" (ingest_body (VStr "") (VStr "doc1")))
    new_response a_world =
    (Normal (bad_request "Text content is required" new_response), a_world) /\
  handleAsk ∅ (stub_providers [] 0)
    (post "/api/ask" (ask_body (VNum 7) (VStr "doc1")))
    new_response a_world =
    (Normal (bad_request "Valid question string is required" new_response), a_world) /\
  handleAsk ∅ (stub_providers [] 0)
    (post "/api/ask" (ask_body (VStr sky_question) VUndefined))
    new_response a_world =
    (Normal (bad_request "Document ID is required" new_response), a_world) /\
  handleAsk ∅ (stub_providers [] 0)
    (post "/api/ask" (ask_body (VObj [("toString", VNum 1)]) (VStr "doc1")))
    new_response a_world =
    (Normal (ask_failed (message cannot_convert) new_response), a_world).
Proof.
  split; [|split; [|split]].
  - apply (validation_messages ∅ (stub_providers [] 0)
             (post "/api/embeddings" (ingest_body (VStr "") (VStr "doc1")))
             new_response (ingest_body (VStr "") (VStr "doc1"))
             a_world (Some (mkOpenAI None), Some the_index) a_world);
      reflexivity.
  - apply (validation_messages ∅ (stub_providers [] 0)
             (post "/api/ask" (ask_body (VNum 7) (VStr "doc1")))
             new_response (ask_body (VNum 7) (VStr "doc1"))
             a_world (Some (mkOpenAI None), Some the_index) a_world);
      reflexivity.
  - apply (validation_messages ∅ (stub_providers [] 0)
             (post "/api/ask" (ask_body (VStr sky_question) VUndefined))
             new_response (ask_body (VStr sky_question) VUndefined)
             a_world (Some (mkOpenAI None), Some the_index) a_world);
      reflexivity.
  - apply (validation_messages ∅ (stub_providers [] 0)
             (post "/api/ask" (ask_body (VObj [("toString", VNum 1)]) (VStr "doc1")))
             new_response (ask_body (VObj [("toString", VNum 1)]) (VStr "doc1"))
             a_world (Some (mkOpenAI None), Some the_index) a_world);
      reflexivity.
Defined.

(** ** Whole runs: what the handlers never do *)

Section Runs.

Context (env : gmap string string) (P : Providers).

Local Arguments initClients : simpl never.
Local Arguments preview : simpl never.
Local Arguments log_chunk : simpl never.
Local Arguments interpolate : simpl never.

Ltac settle_preview :=
  repeat match goal with
  | Hp : preview _ _ _ = (_, _) |- _ => apply preview_world in Hp; subst
  | Hl : log_chunk _ _ _ = (_, _) |- _ => apply log_chunk_world in Hl; subst
  | Hi : interpolate _ _ = (_, _) |- _ => apply interpolate_world in Hi; subst
  end.

Ltac give_calls :=
  unfold after_init, same_clients, new_calls; simpl;
  first [ exists []; by repeat split
        | eexists [_]; by repeat split
        | eexists [_; _]; by repeat split
        | eexists [_; _; _]; by repeat split ].

(** An ingestion always answers, and adds at most an embedding and an
    upsert to what initialisation did. *)
Lemma handleEmbeddings_world req res w :
  (exists r, fst (handleEmbeddings env P req res w) = Normal r /\
             is_Some (sent r) /\ ended r = true) /\
  after_init env P w (snd (handleEmbeddings env P req res w)) ingest_calls.
Proof.
  destruct (handleEmbeddings env P req res w) as [c w'] eqn:H.
  unfold handleEmbeddings, destructure, Date_now_ in H. unfold_monad.
  unfold after_init.
  destruct (initClients env P w) as [[cl|e] w1]; simpl in *.
  - repeat step_in H; inversion H; subst; settle_preview;
      (split; [by eexists | give_calls]).
  - inversion H; subst. split; [by eexists | give_calls].
Qed.

(** So does a question, with an embedding, a query and a chat call. *)
Lemma handleAsk_world req res w :
  (exists r, fst (handleAsk env P req res w) = Normal r /\
             is_Some (sent r) /\ ended r = true) /\
  after_init env P w (snd (handleAsk env P req res w)) ask_calls.
Proof.
  destruct (handleAsk env P req res w) as [c w'] eqn:H.
  unfold handleAsk, destructure, complete in H. unfold_monad.
  unfold after_init.
  destruct (initClients env P w) as [[cl|e] w1]; simpl in *.
  - repeat step_in H; inversion H; subst; settle_preview;
      (split; [by eexists | give_calls]).
  - inversion H; subst. split; [by eexists | give_calls].
Qed.

(** Initialisation keeps the invariant, never unsets the flag and only
    adds calls. *)
Lemma initClients_keeps_ready w :
  clients_ready w ->
  clients_ready (snd (initClients env P w)) /\
  (pineconeInitialized w = true -> snd (initClients env P w) = w).
Proof.
  intros Hready. destruct (initClients env P w) as [c w1] eqn:H.
  unfold clients_ready in *. simpl. split.
  - destruct w as [oa idx ini cs]. simpl in *.
    destruct ini.
    + destruct (Hready eq_refl) as [[o ->] Hidx].
      rewrite (initClients_ready env P (mkWorld (Some o) idx true cs) o
                 eq_refl eq_refl) in H.
      inversion H; subst. simpl. intros _. split; [by eexists | exact Hidx].
    + clear Hready. unfold initClients in H. unfold_monad. simpl in H.
      repeat step_in H; inversion H; subst; simpl; intros Hf;
        try discriminate Hf; split; by eexists.
  - intros Hi. destruct (Hready Hi) as [[o Ho] _].
    rewrite (initClients_ready env P w o Ho Hi) in H. by inversion H.
Qed.

End Runs.

(** X17: the two POST handlers never throw and never leave the request
    unanswered: whatever the body, the world and the providers do, the
    run ends normally with a JSON body sent and the response ended. *)
Theorem handlers_always_respond env P req res w :
  (exists r, fst (handleEmbeddings env P req res w) = Normal r /\
             is_Some (sent r) /\ ended r = true) /\
  (exists r, fst (handleAsk env P req res w) = Normal r /\
             is_Some (sent r) /\ ended r = true).
Proof.
  split.
  - apply (handleEmbeddings_world env P req res w).
  - apply (handleAsk_world env P req res w).
Qed.

(** X18: per request, after initialisation, an ingestion calls the
    embedding at most once and then the upsert at most once, and a
    question calls the embedding, then the query of the 5 nearest matches
    with metadata, then the chat completion, each at most once and in
    this order.  Nothing is retried, the module variables are not
    touched, and a question never writes to the store. *)
Theorem handlers_call_in_order env P req res w :
  after_init env P w (snd (handleEmbeddings env P req res w)) ingest_calls /\
  after_init env P w (snd (handleAsk env P req res w)) ask_calls.
Proof.
  split.
  - apply (handleEmbeddings_world env P req res w).
  - apply (handleAsk_world env P req res w).
Qed.

(** What follows initialisation keeps the invariant of the clients. *)
Lemma after_init_ready env P w w' shape :
  clients_ready w ->
  after_init env P w w' shape ->
  clients_ready w' /\
  (pineconeInitialized w = true -> same_clients w w') /\
  exists cs, calls w' = cs ++ calls w.
Proof.
  intros Hready (cs & (Ho & Hi & Hf) & Hnew & _).
  destruct (initClients_keeps_ready env P w Hready) as [Hready1 Hsame].
  destruct (initClients env P w) as [c w1] eqn:Hinit. simpl in *.
  destruct (initClients_calls env P w w1 c Hinit) as (cs0 & Hcs0 & _).
  unfold clients_ready, same_clients, new_calls in *.
  split; [|split].
  - rewrite Hf, Ho, Hi. exact Hready1.
  - intros Hflag. rewrite (Hsame Hflag) in *. by repeat split.
  - exists (rev cs ++ rev cs0). by rewrite Hnew, Hcs0, app_assoc.
Qed.

(** X19: in every world reached from a fresh module a set flag comes
    with both clients, and the router keeps it so; once the flag is set
    no request changes a module variable, and the list of calls only
    grows. *)
Theorem handler_keeps_clients_ready env P U req res w :
  clients_ready w ->
  clients_ready (snd (handler env P U req res w)) /\
  (pineconeInitialized w = true ->
   same_clients w (snd (handler env P U req res w))) /\
  exists cs, calls (snd (handler env P U req res w)) = cs ++ calls w.
Proof.
  intros Hready.
  assert (Hstay : clients_ready w /\
                  (pineconeInitialized w = true -> same_clients w w) /\
                  exists cs, calls w = cs ++ calls w).
  { split; [exact Hready|]. split; [by repeat split | by exists []]. }
  unfold handler. unfold_monad.
  destruct (method req =? "OPTIONS")%string; [exact Hstay|].
  destruct (U _ _) as [pathname|]; simpl; [|exact Hstay].
  repeat match goal with
  | |- context [if ?c then _ else _] => destruct c; try exact Hstay
  end.
  - eapply after_init_ready; [exact Hready|].
    apply (handleEmbeddings_world env P req (setCorsHeaders env req res) w).
  - eapply after_init_ready; [exact Hready|].
    apply (handleAsk_world env P req (setCorsHeaders env req res) w).
Qed.

Lemma handler_keeps_clients_ready_witness :
  (pineconeInitialized a_world = true /\
   clients_ready
     (snd (handler ∅ (stub_providers [] 0) simple_pathname sky_ingest
             new_response a_world)) /\
   same_clients a_world
     (snd (handler ∅ (stub_providers [] 0) simple_pathname sky_ingest
             new_response a_world)) /\
   exists cs,
     calls (snd (handler ∅ (stub_providers [] 0) simple_pathname sky_ingest
                   new_response a_world)) = cs ++ calls a_world) /\
  (pineconeInitialized
     (snd (handler ∅ (stub_providers [] 0) simple_pathname sky_ingest
             new_response fresh_world)) = true /\
   clients_ready
     (snd (handler ∅ (stub_providers [] 0) simple_pathname sky_ingest
             new_response fresh_world))).
Proof.
  split.
  - destruct (handler_keeps_clients_ready ∅ (stub_providers [] 0) simple_pathname
                sky_ingest new_response a_world) as (Hready & Hsame & Hcalls).
    + intros _. split; by eexists.
    + split; [reflexivity|]. split; [exact Hready|].
      split; [exact (Hsame eq_refl) | exact Hcalls].
  - destruct (handler_keeps_clients_ready ∅ (stub_providers [] 0) simple_pathname
                sky_ingest new_response fresh_world) as (Hready & _ & _).
    + intros Hflag. discriminate Hflag.
    + split; [reflexivity | exact Hready].
Defined.

(** X20: the router throws only when the URL cannot be parsed, and then
    only for a method other than OPTIONS; every other request ends with a
    response. *)
Theorem handler_throws_only_on_bad_url env P U req res w :
  (exists e, fst (handler env P U req res w) = Throw e) <->
  method req <> "OPTIONS" /\ U (url req) (url_base req) = None.
Proof.
  unfold handler, url_base. unfold_monad.
  destruct (method req =? "OPTIONS")%string eqn:Hm.
  { apply String.eqb_eq in Hm. split; [intros [e He]; discriminate He | tauto]. }
  apply String.eqb_neq in Hm.
  destruct (U _ _) as [pathname|]; simpl.
  2: { split; [by intros _ | intros _; by eexists]. }
  assert (Hnormal : forall r : Completion Response,
            (exists r0, r = Normal r0) ->
            (exists e, r = Throw e) <-> method req <> "OPTIONS" /\ Some pathname = None).
  { intros r [r0 ->]. split; [intros [e He]; discriminate He | intros [_ H]; discriminate H]. }
  repeat match goal with
  | |- context [if ?c then _ else _] => destruct c
  end; apply Hnormal; try (by eexists).
  - destruct (handleEmbeddings_world env P req (setCorsHeaders env req res) w)
      as [(r & Hr & _) _]. by exists r.
  - destruct (handleAsk_world env P req (setCorsHeaders env req res) w)
      as [(r & Hr & _) _]. by exists r.
Qed.

(** ** Router: the API prefix (line 260) *)

Lemma substring_whole (p : string) : substring 0 (String.length p) p = p.
Proof. induction p as [|c p IH]; simpl; congruence. Qed.

(** One leading [/api] is dropped, whatever follows it. *)
Lemma strip_api_prefixed (p : string) : strip_api ("/api" +:+ p) = p.
Proof.
  unfold strip_api.
  change ("/api" +:+ p) with (String "/" (String "a" (String "p" (String "i" p)))).
  assert (Hpre : String.prefix "/api"
                   (String "/" (String "a" (String "p" (String "i" p)))) = true)
    by (destruct p; reflexivity).
  rewrite Hpre.
  cbn [String.length Nat.sub substring]. rewrite Nat.sub_0_r.
  apply substring_whole.
Qed.

(** X21: the [/api] prefix is optional.  A URL whose path is [/api]
    followed by [p] is routed exactly as the URL whose path is [p], for
    every [p] that does not itself start with [/api]: same handler, same
    response, same calls. *)
Theorem api_prefix_is_optional env P U req res w u p :
  U (url req) (url_base req) = Some ("/api" +:+ p) ->
  U u (url_base req) = Some p ->
  String.prefix "/api" p = false ->
  handler env P U (with_url u req) res w = handler env P U req res w.
Proof.
  intros Hprefixed Hplain Hp.
  assert (Hsame : normalize_path ("/api" +:+ p) = normalize_path p).
  { unfold normalize_path. rewrite strip_api_prefixed.
    unfold strip_api. by rewrite Hp. }
  unfold handler, url_base in *.
  change (method (with_url u req)) with (method req).
  change (url (with_url u req)) with u.
  change (host (with_url u req)) with (host req).
  rewrite Hprefixed, Hplain. unfold_monad. cbv beta iota zeta.
  unfold ret. cbv beta iota zeta.
  rewrite Hsame. reflexivity.
Qed.

Lemma api_prefix_is_optional_witness :
  handler ∅ (stub_providers good_matches 0) simple_pathname
    (with_url "/ask" (ask "doc1")) new_response a_world =
  handler ∅ (stub_providers good_matches 0) simple_pathname
    (ask "doc1") new_response a_world.
Proof.
  apply (api_prefix_is_optional ∅ (stub_providers good_matches 0) simple_pathname
           (ask "doc1") new_response a_world "/ask" "/ask");
    reflexivity.
Defined.

(** ** CORS on every response (lines 249-250) *)

(** X22: whatever the route and the outcome, 200, 201, 400, 404, 405 or
    500, the response the router ends carries the four CORS headers:
    credentials [true], the fixed lists of methods and headers, and an
    allowed origin. *)
Theorem every_response_has_cors env P U req res w r w' :
  handler env P U req res w = (Normal r, w') ->
  headers r !! "Access-Control-Allow-Credentials" = Some "true" /\
  headers r !! "Access-Control-Allow-Methods" = Some cors_methods /\
  headers r !! "Access-Control-Allow-Headers" = Some cors_headers /\
  is_Some (headers r !! "Access-Control-Allow-Origin") /\
  ended r = true.
Proof.
  intros Hrun.
  destruct (handler_headers env P U req res w r w' Hrun) as [-> Hended].
  destruct (setCorsHeaders_fixed env req res) as (Hc & Hm & Hh & Ho).
  repeat split; assumption.
Qed.

Lemma every_response_has_cors_witness :
  headers (route_not_found
             (setCorsHeaders ∅ (post "/api/unknown" (ask_body VNull VNull)) new_response))
    !! "Access-Control-Allow-Credentials" = Some "true" /\
  headers (route_not_found
             (setCorsHeaders ∅ (post "/api/unknown" (ask_body VNull VNull)) new_response))
    !! "Access-Control-Allow-Methods" = Some cors_methods /\
  headers (route_not_found
             (setCorsHeaders ∅ (post "/api/unknown" (ask_body VNull VNull)) new_response))
    !! "Access-Control-Allow-Headers" = Some cors_headers /\
  is_Some (headers (route_not_found
             (setCorsHeaders ∅ (post "/api/unknown" (ask_body VNull VNull)) new_response))
    !! "Access-Control-Allow-Origin") /\
  ended (route_not_found
           (setCorsHeaders ∅ (post "/api/unknown" (ask_body VNull VNull)) new_response))
    = true.
Proof.
  apply (every_response_has_cors ∅ flaky_providers simple_pathname
           (post "/api/unknown" (ask_body VNull VNull)) new_response fresh_world
           (route_not_found
              (setCorsHeaders ∅ (post "/api/unknown" (ask_body VNull VNull))
                 new_response))
           fresh_world).
  reflexivity.
Defined.

(** ** A documentID that is not a string (line 173) *)

(** X23: the id comparison is strict, so a documentID that is not a
    string but that the log lines can convert to one (a number, a
    boolean, an array or object without an own [toString] key inside)
    selects no match, even when a match's id reads the same: the handler
    goes by the first match's score, and with a score of at least 0.5
    answers from that match with the lenient prompt.  (A documentID that
    does not convert never gets here: see X16.) *)
Theorem non_string_documentID_never_matches env P req res w b q w1 idx v best rest :
  search_returns env P req w b q w1 idx v (best :: rest) ->
  typeof_string (documentID b) = false ->
  (1 # 2 <= m_score best)%Q ->
  no_exact_match (best :: rest) (documentID b) /\
  fst (handleAsk env P req res w) =
    match chat_create P (chat_model env) (lenient_prompt (m_text best)) q
            (7 # 10) 500 (calls (searched q idx v w1)) with
    | Normal a => Normal (answered q a res)
    | Throw e => Normal (ask_failed (message e) res)
    end.
Proof.
  intros (Hb & Hq & Hne & Hd & Hcd & [oa Hinit] & Hemb & Hquery) Htype Hscore.
  assert (Hno : no_exact_match (best :: rest) (documentID b)).
  { intros m _ Heq. rewrite <- Heq in Htype. discriminate Htype. }
  split; [exact Hno|].
  rewrite (handleAsk_valid env P req res b q w oa idx w1 v (best :: rest)
             Hb Hq Hne Hd Hcd Hinit Hemb Hquery).
  apply find_exact_none in Hno. apply Qle_bool_iff in Hscore.
  unfold resolve. rewrite Hno, Hscore. cbv zeta. unfold prompt, searched.
  destruct (chat_create P _ _ _ _ _ _); reflexivity.
Qed.

Lemma non_string_documentID_never_matches_witness :
  no_exact_match [mkMatch "123" (9 # 10) "Grass is green."]
    (documentID (ask_body (VStr sky_question) (VNum 123))) /\
  fst (handleAsk ∅ (stub_providers [mkMatch "123" (9 # 10) "Grass is green."] 0)
         (post "/api/ask" (ask_body (VStr sky_question) (VNum 123)))
         new_response a_world) =
    match chat_create (stub_providers [mkMatch "123" (9 # 10) "Grass is green."] 0)
            (chat_model ∅)
            (lenient_prompt (m_text (mkMatch "123" (9 # 10) "Grass is green.")))
            sky_question (7 # 10) 500
            (calls (searched sky_question the_index [1%Q; 0%Q] a_world)) with
    | Normal a => Normal (answered sky_question a new_response)
    | Throw e => Normal (ask_failed (message e) new_response)
    end.
Proof.
  apply (non_string_documentID_never_matches ∅
           (stub_providers [mkMatch "123" (9 # 10) "Grass is green."] 0)
           (post "/api/ask" (ask_body (VStr sky_question) (VNum 123)))
           new_response a_world (ask_body (VStr sky_question) (VNum 123))
           sky_question a_world the_index [1%Q; 0%Q]
           (mkMatch "123" (9 # 10) "Grass is green.") []);
    [| reflexivity | by vm_compute].
  repeat split; try reflexivity; [discriminate | by eexists].
Defined.

(** ** The log lines and values that do not convert (lines 97 and 138) *)

(** What converts to a string and what does not. *)
Example conversions :
  converts (VObj [("a", VNum 1)]) = true /\
  converts (VObj [("toString", VNum 1)]) = false /\
  converts (VObj [("valueOf", VNum 1)]) = true /\
  converts (VArr [VNull; VStr "a"; VArr []]) = true /\
  converts (VArr [VNull; VObj [("toString", VNull)]]) = false.
Proof. repeat split. Qed.

(** X24: when the log line of the ingestion throws, because
    [text.length] or a truthy [chunkId] does not convert to a string (an
    object with an own [toString] key), the response is a 500 with the
    TypeError's message and no embedding is requested, although the text
    passed the emptiness check. *)
Theorem unloggable_chunk_is_server_error env P req res w b c w1 :
  body req = Some b ->
  truthy (text b) = true ->
  initClients env P w = (Normal c, w1) ->
  chunk_logs b = false ->
  handleEmbeddings env P req res w =
    (Normal (server_error (message cannot_convert) res), w1).
Proof.
  intros Hb Ht Hinit Hlog.
  unfold handleEmbeddings, destructure, log_chunk, length_of, interpolate,
    chunk_logs, server_error in *.
  unfold try_catch at 1. unfold bind at 1. rewrite Hinit, Hb.
  unfold_monad. simpl. rewrite Ht. simpl.
  destruct (text b); try discriminate Ht; simpl in *;
    repeat match goal with
    | |- context [if ?k then _ else _] => destruct k eqn:?; simpl in *
    end; try reflexivity; try discriminate Hlog; congruence.
Qed.

Lemma unloggable_chunk_is_server_error_witness :
  handleEmbeddings ∅ (stub_providers [] 0)
    (post "/api/embeddings"
       (ingest_body (VStr "The sky is blue.") (VObj [("toString", VNum 1)])))
    new_response a_world =
    (Normal (server_error (message cannot_convert) new_response), a_world).
Proof.
  apply (unloggable_chunk_is_server_error ∅ (stub_providers [] 0)
           (post "/api/embeddings"
              (ingest_body (VStr "The sky is blue.") (VObj [("toString", VNum 1)])))
           new_response a_world
           (ingest_body (VStr "The sky is blue.") (VObj [("toString", VNum 1)]))
           (Some (mkOpenAI None), Some the_index) a_world);
    reflexivity.
Defined.

(** A text that is an object goes by its own [length]: none, or one
    that reads at most 100, and the object is stored and returned as it
    is; one that reads more than 100, and it is stored before the preview
    throws. *)
Example object_text_runs :
  exists r1 w1 r2 w2,
    handleEmbeddings ∅ (stub_providers [] 0)
      (post "/api/embeddings"
         (ingest_body (VObj [("body", VStr "sky"); ("length", VNum 5)]) (VStr "doc1")))
      new_response a_world = (Normal r1, w1) /\
    statusCode r1 = 201 /\
    (sent r1 ≫= field "text")
      = Some (VObj [("body", VStr "sky"); ("length", VNum 5)]) /\
    handleEmbeddings ∅ (stub_providers [] 0)
      (post "/api/embeddings"
         (ingest_body (VObj [("length", VArr [VStr "200"])]) (VStr "doc1")))
      new_response a_world = (Normal r2, w2) /\
    statusCode r2 = 500 /\
    List.length (calls w2) = 2%nat.
Proof. by eexists _, _, _, _; vm_compute. Qed.
